(** * google_scholar_paper_scraper: a shallow embedding and its properties

    The development follows [google_scholar_paper_scraper.py] function by
    function.  Python strings are Rocq strings whose characters stand for the
    code points below 256; a [dict] is a [gmap], the set of file names a
    [gset]; exceptions and the unbounded [while True] loop are results of an
    outcome type; the network, the file system of the author's folder and the
    browser fallback are an explicit environment and an explicit world that
    the functions thread. *)

From Stdlib Require Import ZArith Ascii DecimalString DecimalPos.
From stdpp Require Import gmap strings list.

Open Scope Z_scope.

(** ** Python [str] primitives and the regular expressions of the module *)

Module PyStr.

Definition code (c : ascii) : N := N_of_ascii c.

Definition between (lo hi : ascii) (c : ascii) : bool :=
  ((code lo <=? code c) && (code c <=? code hi))%N.

Definition is_digit (c : ascii) : bool := between "0" "9" c.

(** [str.isspace] on the code points below 256. *)
Definition is_space (c : ascii) : bool :=
  (between "009" "013" c || between "028" "032" c
   || (code c =? 133) || (code c =? 160))%N.

(** [str.lower] on one code point below 256. *)
Definition lower_char (c : ascii) : ascii :=
  if (between "A" "Z" c
      || (between "192" "222" c && negb (code c =? 215)%N))
  then ascii_of_N (code c + 32) else c.

Fixpoint lower (s : string) : string :=
  match s with
  | "" => ""
  | String c s' => String (lower_char c) (lower s')
  end.

Fixpoint lstrip (s : string) : string :=
  match s with
  | "" => ""
  | String c s' => if is_space c then lstrip s' else s
  end.

Fixpoint rstrip (s : string) : string :=
  match s with
  | "" => ""
  | String c s' =>
      match rstrip s' with
      | "" => if is_space c then "" else String c ""
      | r => String c r
      end
  end.

(** [s.strip()] *)
Definition strip (s : string) : string := rstrip (lstrip s).

(** [s.startswith(p)] *)
Fixpoint startswith (p s : string) : bool :=
  match p, s with
  | "", _ => true
  | String a p', String b s' => if decide (a = b) then startswith p' s' else false
  | String _ _, "" => false
  end.

(** [s.endswith(p)] *)
Fixpoint endswith (p s : string) : bool :=
  bool_decide (s = p) ||
  match s with
  | "" => false
  | String _ s' => endswith p s'
  end.

(** [p in s] *)
Fixpoint contains (p s : string) : bool :=
  startswith p s ||
  match s with
  | "" => false
  | String _ s' => contains p s'
  end.

(** [s.replace(a, b)] for one-character [a] and [b]. *)
Fixpoint replace_char (a b : ascii) (s : string) : string :=
  match s with
  | "" => ""
  | String c s' => String (if decide (c = a) then b else c) (replace_char a b s')
  end.

(** [s] without its prefix [p], when [s] starts with [p]. *)
Fixpoint drop_prefix (p s : string) : option string :=
  match p, s with
  | "", _ => Some s
  | String a p', String b s' => if decide (a = b) then drop_prefix p' s' else None
  | String _ _, "" => None
  end.

(** The longest run of digits at the head of [s], and [int] of a run. *)
Fixpoint digits_prefix (s : string) : string :=
  match s with
  | String c s' => if is_digit c then String c (digits_prefix s') else ""
  | "" => ""
  end.

Fixpoint int_digits (acc : Z) (s : string) : Z :=
  match s with
  | "" => acc
  | String c s' => int_digits (10 * acc + (Z.of_N (code c) - 48)) s'
  end.

(** [int(s)] for a string of ASCII digits. *)
Definition int (s : string) : Z := int_digits 0 s.

(** [str(n)], as an f-string prints an [int]. *)
Definition str_of_int (n : Z) : string := NilZero.string_of_int (Z.to_int n).

(** [re.search(r'Cited by (\d+)', s)]: group 1 of the leftmost match. *)
Fixpoint search_cited_by (s : string) : option string :=
  match drop_prefix "Cited by " s with
  | Some (String c r) =>
      if is_digit c then Some (digits_prefix (String c r))
      else match s with "" => None | String _ s' => search_cited_by s' end
  | _ => match s with "" => None | String _ s' => search_cited_by s' end
  end.

(** [re.search(r'(\d{4})', s)]: group 1 of the leftmost match. *)
Fixpoint search_four_digits (s : string) : option string :=
  match s with
  | String a (String b (String c (String d _)) as s') =>
      if is_digit a && is_digit b && is_digit c && is_digit d
      then Some (String a (String b (String c (String d ""))))
      else search_four_digits s'
  | _ => None
  end.

(** The character class [[A-Za-z0-9\-\._ ]]. *)
Definition safe_char (c : ascii) : bool :=
  between "A" "Z" c || between "a" "z" c || between "0" "9" c
  || bool_decide (c = "-"%char) || bool_decide (c = "."%char)
  || bool_decide (c = "_"%char) || bool_decide (c = " "%char).

(** [re.sub(r"[^A-Za-z0-9\-\._ ]+", "_", s)]: every maximal run of
    characters outside the class becomes one underscore.  [in_run] tells
    that the previous character already belonged to such a run. *)
Fixpoint sub_unsafe_runs (in_run : bool) (s : string) : string :=
  match s with
  | "" => ""
  | String c s' =>
      if safe_char c then String c (sub_unsafe_runs false s')
      else if in_run then sub_unsafe_runs true s'
      else String "_" (sub_unsafe_runs true s')
  end.

(** Every character of [s] satisfies [p]. *)
Fixpoint all_chars (p : ascii -> bool) (s : string) : bool :=
  match s with
  | "" => true
  | String c s' => p c && all_chars p s'
  end.

End PyStr.

(** ** [_safe_filename] *)

Definition _safe_filename (name : string) (default : string) : string :=
  let name := PyStr.strip (PyStr.sub_unsafe_runs false name) in
  match name with
  | "" => default
  | _ => name
  end.

(** The [default] argument when the caller leaves it out. *)
Definition default_name : string := "paper".

(** ** Parsed HTML: [lxml] elements and the XPath queries of the module *)

#[warnings="-register-all"]
Inductive element : Type :=
  Element (tag : string) (attrib : list (string * string))
          (text : string) (children : list element) (tail : string).

Definition el_tag (e : element) : string := let 'Element t _ _ _ _ := e in t.
Definition el_attrib (e : element) : list (string * string) := let 'Element _ a _ _ _ := e in a.
Definition el_tail (e : element) : string := let 'Element _ _ _ _ t := e in t.

(** [e.getchildren()] *)
Definition getchildren (e : element) : list element := let 'Element _ _ _ c _ := e in c.

(** [e.get(key)]: [None] when the attribute is absent. *)
Fixpoint assoc_get (key : string) (l : list (string * string)) : option string :=
  match l with
  | [] => None
  | (k, v) :: l' => if decide (k = key) then Some v else assoc_get key l'
  end.

Definition el_get (e : element) (key : string) : option string :=
  assoc_get key (el_attrib e).

(** [e.text_content()]: the text of the element and of its descendants,
    with the tails of the descendants, in document order. *)
Fixpoint text_content (e : element) : string :=
  match e with
  | Element _ _ txt cs _ =>
      txt +:+ (fix over (l : list element) : string :=
                 match l with
                 | [] => ""
                 | c :: l' => text_content c +:+ el_tail c +:+ over l'
                 end) cs
  end.

(** One step [//tag] or [//tag[@name="value"]] of a path. *)
Definition step : Type := string * option (string * string).

Definition matches (s : step) (e : element) : bool :=
  bool_decide (el_tag e = s.1) &&
  match s.2 with
  | None => true
  | Some (k, v) => bool_decide (el_get e k = Some v)
  end.

(** The elements that a path [//s1//s2...//sn] selects in the subtree of [e],
    in document order, when [steps] is what remains of the path once the
    proper ancestors of [e] have matched the longest possible prefix. *)
Fixpoint descend (steps : list step) (e : element) : list element :=
  match e with
  | Element _ _ _ cs _ =>
      match steps with
      | [] => []
      | [final] =>
          (if matches final e then [e] else [])
            ++ flat_map (descend [final]) cs
      | s :: rest =>
          flat_map (descend (if matches s e then rest else steps)) cs
      end
  end.

(** [doc.xpath('//s1//s2...')] on the root of a parsed page. *)
Definition xpath (root : element) (path : list step) : list element :=
  descend path root.

(** [e.xpath('.//s1//s2...')], relative to [e]. *)
Definition xpath_rel (e : element) (path : list step) : list element :=
  flat_map (descend path) (getchildren e).

Definition div_with (name value : string) : step := ("div", Some (name, value)).

(** ** Outcomes, the environment and the world *)

Inductive exn : Type :=
  | IndexError      (**r [l[0]] or [l[-1]] on an empty list *)
  | TypeError
  | HTTPError       (**r [raise_for_status] *)
  | RequestException.

(** A call returns, raises, or is still looping when the fuel that bounds
    the [while True] of [fetch_and_parse] is spent. *)
Inductive outcome (A : Type) : Type :=
  | Return (a : A)
  | Raise (e : exn)
  | OutOfFuel.
Arguments Return {A} a.
Arguments Raise {A} e.
Arguments OutOfFuel {A}.

(** What [requests.get] gives: an exception of the transport, or a response
    with its status and, for an HTML page, the tree [html.fromstring] builds
    from its text.  The request for cookies made for each call is part of the
    call: its failure is the call's failure. *)
Inductive http_result : Type :=
  | RequestFailed
  | Response (status_code : Z) (tree : element).

(** The response to the request for the artifact, with the chunks that
    [iter_content] yields.  (A transport error in the middle of the stream
    is not modelled: the chunks of a response all arrive.) *)
Inductive pdf_result : Type :=
  | PdfRequestFailed
  | PdfResponse (status_code : Z) (chunks : list string).

Record environment : Type := {
  search_get : option string -> http_result;       (**r GET /scholar?q=name *)
  citations_get : string -> Z -> http_result;      (**r GET /citations?user=id&cstart=n *)
  article_get : string -> http_result;             (**r GET of a detail page *)
  pdf_get : string -> pdf_result;                  (**r GET of an artifact *)
  urljoin : string -> string -> string;            (**r [urllib.parse.urljoin] *)
  open_fails : string -> bool;                     (**r [open(name, "wb")] raises OSError *)
  selenium_fails : string -> bool;                 (**r [download_with_selenium] raises *)
  cwd : string                                     (**r [os.getcwd()] in the author's folder *)
}.

(** A value stored in the metadata [dict]. *)
Inductive value : Type :=
  | VStr (s : string)
  | VInt (n : Z).

#[global] Instance value_eq_dec : EqDecision value.
Proof. solve_decision. Defined.

(** Truth value of a [str] or an [int]. *)
Definition truthy (v : value) : bool :=
  match v with
  | VStr s => negb (bool_decide (s = ""))
  | VInt n => negb (n =? 0)
  end.

Inductive status : Type := already_exists | downloaded | failed.

#[global] Instance status_eq_dec : EqDecision status.
Proof. solve_decision. Defined.

(** The [paper_record] dict of [scrape_author_papers], key by key. *)
Record paper_record : Type := {
  title : string;
  authors : value;
  publication_date : value;
  journal : value;
  volume : value;
  issue : value;
  pages : value;
  publisher : value;
  description : value;
  total_citations : value;
  scholar_url : string;
  pdf_filename : string;
  download_status : status
}.

Inductive file_content : Type :=
  | Binary (chunks : list string)          (**r what [f.write] received *)
  | Table (rows : list paper_record).      (**r a DataFrame saved by [to_csv] *)

Inductive event : Type :=
  | GetSearch (q : option string)
  | GetCitations (user : string) (cstart : Z)
  | GetArticle (url : string)
  | GetPdf (url : string)
  | SeleniumGet (url : string)
  | WriteFile (name : string).

(** The files of the author's folder and the requests and writes made so
    far, oldest first. *)
Record world : Type := {
  files : gmap string file_content;
  log : list event
}.

Definition M (A : Type) : Type := world -> outcome A * world.

#[global] Instance M_ret : MRet M := fun A a w => (Return a, w).

#[global] Instance M_bind : MBind M := fun A B f c w =>
  match c w with
  | (Return a, w') => f a w'
  | (Raise e, w') => (Raise e, w')
  | (OutOfFuel, w') => (OutOfFuel, w')
  end.

Definition raise {A : Type} (e : exn) : M A := fun w => (Raise e, w).

Definition emit (e : event) : M unit :=
  fun w => (Return tt, {| files := files w; log := log w ++ [e] |}).

Definition write_file (name : string) (c : file_content) : M unit :=
  fun w => (Return tt, {| files := <[name := c]> (files w); log := log w ++ [WriteFile name] |}).

(** ** [urllib.parse]: the query of a link and [parse_qs] *)

Module Url.

(** [s.split(sep)] *)
Fixpoint split (sep : ascii) (s : string) : list string :=
  match s with
  | "" => [""]
  | String c s' =>
      if decide (c = sep) then "" :: split sep s'
      else match split sep s' with
           | [] => [String c ""]
           | p :: ps => String c p :: ps
           end
  end.

(** [s.partition('=')], without the separator: the text before the first
    [=] and the text after it (empty when there is none). *)
Fixpoint partition_eq (s : string) : string * string :=
  match s with
  | "" => ("", "")
  | String c s' =>
      if decide (c = "="%char) then ("", s')
      else let '(n, v) := partition_eq s' in (String c n, v)
  end.

Definition hex_digit (c : ascii) : option N :=
  (if PyStr.between "0" "9" c then Some (PyStr.code c - 48)
   else if PyStr.between "a" "f" c then Some (PyStr.code c - 87)
   else if PyStr.between "A" "F" c then Some (PyStr.code c - 55)
   else None)%N.

(** [unquote]: [%XX] becomes the character of code [XX]; a [%] that two
    hexadecimal digits do not follow stays.  (Escapes of 0x80 and above,
    which Python decodes as UTF-8, are outside the code points modelled.) *)
Fixpoint unquote (s : string) : string :=
  match s with
  | "" => ""
  | String c s' =>
      match (if decide (c = "%"%char) then
               match s' with
               | String h (String l _) =>
                   match hex_digit h, hex_digit l with
                   | Some a, Some b => Some (ascii_of_N (16 * a + b))
                   | _, _ => None
                   end
               | _ => None
               end
             else None) with
      | Some d =>
          String d (match s' with
                    | String _ (String _ r) => unquote r
                    | _ => ""
                    end)
      | None => String c (unquote s')
      end
  end.

Definition decode (s : string) : string :=
  unquote (PyStr.replace_char "+" " " s).

(** [parse_qsl(qs)] with its defaults: fields are separated by [&]; a field
    that is empty or whose value is blank is dropped. *)
Definition parse_qsl (qs : string) : list (string * string) :=
  omap (fun name_value =>
          let '(name, v) := partition_eq name_value in
          match v with
          | "" => None
          | _ => Some (decode name, decode v)
          end)
       (split "&" qs).

(** [parse_qs(qs)]: each name with the list of its values, in order. *)
Definition parse_qs (qs : string) : gmap string (list string) :=
  foldl (fun d '(name, v) => <[name := default [] (d !! name) ++ [v]]> d)
        ∅ (parse_qsl qs).

Fixpoint before (sep : ascii) (s : string) : string :=
  match s with
  | "" => ""
  | String c s' => if decide (c = sep) then "" else String c (before sep s')
  end.

Fixpoint after (sep : ascii) (s : string) : string :=
  match s with
  | "" => ""
  | String c s' => if decide (c = sep) then s' else after sep s'
  end.

Fixpoint remove_chars (p : ascii -> bool) (s : string) : string :=
  match s with
  | "" => ""
  | String c s' => if p c then remove_chars p s' else String c (remove_chars p s')
  end.

(** [urlparse(url).query]: tabs and line breaks are removed, the fragment
    is cut at the first [#], and the query is what follows the first [?]
    of the rest.  (A scheme and a network location hold neither
    character; the errors [urlparse] raises on a malformed network
    location are not modelled.) *)
Definition query (url : string) : string :=
  let url := remove_chars (fun c => bool_decide (c = "009"%char)
                                    || bool_decide (c = "010"%char)
                                    || bool_decide (c = "013"%char)) url in
  after "?" (before "#" url).

End Url.

(** ** [get_author_id] *)

(** [l[0]] *)
Definition first_item {A : Type} (l : list A) : M A :=
  match l with
  | [] => raise IndexError
  | x :: _ => mret x
  end.

(** [params.get("user", [""])[0]] for the parameters of [link]. *)
Definition user_of_link (link : string) : M string :=
  let params := Url.parse_qs (Url.query link) in
  first_item (default [""] (params !! "user")).

(** [if link:] on an optional string. *)
Definition given (link : option string) : option string :=
  match link with
  | Some "" | None => None
  | Some l => Some l
  end.

Definition get_author_id (env : environment)
    (author_name : option string) (link : option string) : M string :=
  match given link with
  | Some link => user_of_link link
  | None =>
      _ ← emit (GetSearch author_name);
      match search_get env author_name with
      | RequestFailed => raise RequestException
      | Response _ tree =>
          table ← first_item
            (xpath tree [div_with "role" "main"; div_with "class" "gs_r"; ("table", None)]);
          link ← first_item (omap (fun a => el_get a "href") (xpath_rel table [("a", None)]));
          user_of_link link
      end
  end.

(** ** The listing paginator: [_fetch_and_parse] and [fetch_and_parse] *)

(** The dict [{"title": ..., "url": ...}] of one listed publication. *)
Module Item.
Record t : Type := { title : string; url : string }.

#[global] Instance eq_dec : EqDecision t.
Proof. solve_decision. Defined.
End Item.

Definition BASE : string := "https://scholar.google.com".

(** [r.raise_for_status()] *)
Definition raise_for_status (status_code : Z) : M unit :=
  if (400 <=? status_code) && (status_code <? 600) then raise HTTPError else mret tt.

(** The body of [for tr in rows] in [_fetch_and_parse]. *)
Definition row_item (env : environment) (tr : element) : Item.t :=
  let title_el := xpath_rel tr [("a", Some ("class", "gsc_a_at"))] in
  let title := match title_el with
               | a :: _ => PyStr.strip (text_content a)
               | [] => ""
               end in
  let href_rel := match title_el with
                  | a :: _ => el_get a "href"
                  | [] => Some ""
                  end in
  let href := match given href_rel with
              | Some rel => urljoin env BASE rel
              | None => ""
              end in
  {| Item.title := title; Item.url := href |}.

Definition _fetch_and_parse (env : environment)
    (author_id : option string) (link : option string) (pagination : Z)
  : M (list Item.t) :=
  user ← get_author_id env author_id link;
  _ ← emit (GetCitations user pagination);
  match citations_get env user pagination with
  | RequestFailed => raise RequestException
  | Response status_code doc =>
      _ ← raise_for_status status_code;
      let rows := xpath doc [("tr", Some ("class", "gsc_a_tr"))] in
      mret (row_item env <$> rows)
  end.

(** [len(results) > 0 and results[-1] == items[-1]]: the right operand is
    evaluated only when [results] is not empty, and then [items[-1]] raises
    on an empty page. *)
Definition repeats_tail (results items : list Item.t) : M bool :=
  match last results with
  | None => mret false
  | Some r =>
      match last items with
      | None => raise IndexError
      | Some i => mret (bool_decide (r = i))
      end
  end.

(** The [while True] loop, from the state [(results, pagination)]; each
    iteration takes one unit of fuel. *)
Fixpoint fetch_and_parse_loop (fuel : nat) (env : environment)
    (author_id : option string) (link : option string)
    (results : list Item.t) (pagination : Z) : M (list Item.t) :=
  match fuel with
  | O => fun w => (OutOfFuel, w)
  | S fuel' =>
      items ← _fetch_and_parse env author_id link pagination;
      stop ← repeats_tail results items;
      if stop : bool then mret results
      else fetch_and_parse_loop fuel' env author_id link (results ++ items) (pagination + 100)
  end.

Definition fetch_and_parse (fuel : nat) (env : environment)
    (author_id : option string) (link : option string) : M (list Item.t) :=
  fetch_and_parse_loop fuel env author_id link [] 0.

(** ** [extract_paper_metadata] *)

(** One iteration of [for field_div in fields]. *)
Definition extract_field (field_div : element) (metadata : gmap string value)
  : M (gmap string value) :=
  let field_name_els := xpath_rel field_div [div_with "class" "gsc_oci_field"] in
  let field_value_els := xpath_rel field_div [div_with "class" "gsc_oci_value"] in
  match field_name_els, field_value_els with
  | name_el :: _, value_el :: _ =>
      let field_name := PyStr.strip (text_content name_el) in
      field_value ←
        (if decide (field_name = "Total citations")
         then child ← first_item (getchildren value_el); mret (text_content child)
         else mret (PyStr.strip (text_content value_el)));
      mret
        (if decide (field_name = "Authors") then
           <["authors" := VStr field_value]> metadata
         else if decide (field_name = "Publication date") then
           <["publication_date" := VStr field_value]> metadata
         else if decide (field_name = "Journal") then
           <["journal" := VStr field_value]> metadata
         else if decide (field_name = "Volume") then
           <["volume" := VStr field_value]> metadata
         else if decide (field_name = "Issue") then
           <["issue" := VStr field_value]> metadata
         else if decide (field_name = "Pages") then
           <["pages" := VStr field_value]> metadata
         else if decide (field_name = "Publisher") then
           <["publisher" := VStr field_value]> metadata
         else if decide (field_name = "Description") then
           <["description" := VStr (PyStr.replace_char "160" " " field_value)]> metadata
         else if decide (field_name = "Total citations") then
           <["total_citations_detailed" :=
               VInt (match PyStr.search_cited_by field_value with
                     | Some digits => PyStr.int digits
                     | None => 0
                     end)]> metadata
         else metadata)
  | _, _ => mret metadata
  end.

Fixpoint extract_fields (fields : list element) (metadata : gmap string value)
  : M (gmap string value) :=
  match fields with
  | [] => mret metadata
  | field_div :: rest =>
      metadata ← extract_field field_div metadata;
      extract_fields rest metadata
  end.

Definition extract_paper_metadata (doc : element) : M (gmap string value) :=
  extract_fields
    (xpath doc [div_with "id" "gsc_oci_table"; div_with "class" "gs_scl"]) ∅.

(** ** [download_pdf_from_scholar_article] *)

(** [f"{paper_title}({year})" if year else paper_title] *)
Definition base_name (paper_title : string) (year : option Z) : string :=
  match year with
  | Some y =>
      if y =? 0 then paper_title
      else paper_title +:+ "(" +:+ PyStr.str_of_int y +:+ ")"
  | None => paper_title
  end.

(** [_safe_filename(base_name) + ".pdf"] *)
Definition pdf_name (paper_title : string) (year : option Z) : string :=
  _safe_filename (base_name paper_title year) default_name +:+ ".pdf".

(** ['pdf' in anchor.text_content().lower()] *)
Definition mentions_pdf (anchor : element) : bool :=
  PyStr.contains "pdf" (PyStr.lower (text_content anchor)).

(** The choice of [pdf_href] among the anchors found, for a list that is
    not empty. *)
Definition select_pdf_href (pdf_anchors : list element) : option string :=
  match pdf_anchors with
  | _ :: _ :: _ =>
      let pdf_href :=
        match find mentions_pdf pdf_anchors with
        | Some anchor => el_get anchor "href"
        | None => None
        end in
      match given pdf_href with
      | Some href => Some href
      | None => last pdf_anchors ≫= fun anchor => el_get anchor "href"
      end
  | anchor :: _ => el_get anchor "href"
  | [] => None
  end.

(** [os.path.abspath(filename)] for a plain file name. *)
Definition abspath (env : environment) (filename : string) : string :=
  cwd env +:+ "/" +:+ filename.

Definition pdf_title_path : list step :=
  [div_with "role" "main"; div_with "id" "gsc_oci_title_wrapper";
   div_with "class" "gsc_oci_title_ggi"; ("a", None)].

(** The part of the function after the page has been fetched and parsed. *)
Definition download_from_page (env : environment) (doc : element)
    (article_url paper_title : string) (year : option Z) (use_selenium : bool)
  : M (option string * option (gmap string value)) :=
  metadata ← extract_paper_metadata doc;
  let pdf_anchors := xpath doc pdf_title_path in
  match pdf_anchors with
  | [] => mret (None, Some metadata)
  | _ =>
      match given (select_pdf_href pdf_anchors) with
      | None => mret (None, Some metadata)
      | Some pdf_href =>
          let pdf_url :=
            urljoin env (if PyStr.startswith "http" article_url then article_url else BASE)
                    pdf_href in
          _ ← emit (GetPdf pdf_url);
          match pdf_get env pdf_url with
          | PdfRequestFailed => mret (None, Some metadata)
          | PdfResponse status_code chunks =>
              if negb (status_code =? 200) then
                if use_selenium then
                  _ ← emit (SeleniumGet pdf_url);
                  if selenium_fails env pdf_url then mret (None, Some metadata)
                  else mret (Some "downloaded_with_selenium", Some metadata)
                else mret (None, Some metadata)
              else
                let filename := pdf_name paper_title year in
                if open_fails env filename then mret (None, Some metadata)
                else
                  _ ← write_file filename
                        (Binary (filter (fun chunk => chunk ≠ "") chunks));
                  mret (Some (abspath env filename), Some metadata)
          end
      end
  end.

Definition download_pdf_from_scholar_article (env : environment)
    (article_url paper_title : string) (year : option Z) (use_selenium : bool)
  : M (option string * option (gmap string value)) :=
  _ ← emit (GetArticle article_url);
  match article_get env article_url with
  | RequestFailed => mret (None, None)
  | Response status_code doc =>
      if negb (status_code =? 200) then mret (None, None)
      else download_from_page env doc article_url paper_title year use_selenium
  end.

(** ** [scrape_author_papers] *)

(** The local variables that the loop over the items updates. *)
Record loop_state : Type := {
  downloaded_papers : gset string;
  papers_metadata : list paper_record;
  downloaded_count : Z;
  skipped_count : Z
}.

(** [glob.glob('*.pdf')]: the names that end in [.pdf] and do not start with
    a dot. *)
Definition glob_pdf (fs : gmap string file_content) : gset string :=
  filter (fun name => PyStr.endswith ".pdf" name && negb (PyStr.startswith "." name))
         (dom fs).

Definition initial_state (w : world) : loop_state :=
  {| downloaded_papers := glob_pdf (files w);
     papers_metadata := [];
     downloaded_count := 0;
     skipped_count := 0 |}.

(** [not metadata]: [None], or a dict without keys. *)
Definition usable (metadata : option (gmap string value)) : option (gmap string value) :=
  match metadata with
  | Some m => if decide (m = ∅) then None else Some m
  | None => None
  end.

(** The year read from [metadata['publication_date']]. *)
Definition year_of (metadata : gmap string value) : M (option Z) :=
  match metadata !! "publication_date" with
  | Some v =>
      if truthy v then
        match v with
        | VStr s => mret (PyStr.int <$> PyStr.search_four_digits s)
        | VInt _ => raise TypeError
        end
      else mret None
  | None => mret None
  end.

(** The body of the loop, after the test of the cap. *)
Definition process_item (env : environment) (use_selenium : bool)
    (item : Item.t) (st : loop_state) : M loop_state :=
  '(result, metadata) ←
    download_pdf_from_scholar_article env (Item.url item) (Item.title item) None use_selenium;
  match usable metadata with
  | None => mret st
  | Some metadata =>
      let title := Item.title item in
      year ← year_of metadata;
      let filename := pdf_name title year in
      let paper_record (st : status) :=
        {| title := title;
           authors := default (VStr "") (metadata !! "authors");
           publication_date := default (VStr "") (metadata !! "publication_date");
           journal := default (VStr "") (metadata !! "journal");
           volume := default (VStr "") (metadata !! "volume");
           issue := default (VStr "") (metadata !! "issue");
           pages := default (VStr "") (metadata !! "pages");
           publisher := default (VStr "") (metadata !! "publisher");
           description := default (VStr "") (metadata !! "description");
           total_citations := default (VInt 0) (metadata !! "total_citations_detailed");
           scholar_url := Item.url item;
           pdf_filename := filename;
           download_status := st |} in
      if decide (filename ∈ downloaded_papers st) then
        mret {| downloaded_papers := downloaded_papers st;
                papers_metadata := papers_metadata st ++ [paper_record already_exists];
                downloaded_count := downloaded_count st;
                skipped_count := skipped_count st + 1 |}
      else if bool_decide (is_Some (given result)) then
        mret {| downloaded_papers := {[filename]} ∪ downloaded_papers st;
                papers_metadata := papers_metadata st ++ [paper_record downloaded];
                downloaded_count := downloaded_count st + 1;
                skipped_count := skipped_count st |}
      else
        mret {| downloaded_papers := downloaded_papers st;
                papers_metadata := papers_metadata st ++ [paper_record failed];
                downloaded_count := downloaded_count st;
                skipped_count := skipped_count st |}
  end.

(** [for i, item in enumerate(items)], with its [break]. *)
Fixpoint scrape_loop (env : environment) (use_selenium : bool) (max_papers : Z)
    (items : list Item.t) (st : loop_state) : M loop_state :=
  match items with
  | [] => mret st
  | item :: rest =>
      if (0 <? max_papers) && (max_papers <=? downloaded_count st) then mret st
      else
        st ← process_item env use_selenium item st;
        scrape_loop env use_selenium max_papers rest st
  end.

(** The function, run in the author's folder; [fuel] bounds the iterations
    of the paginator. *)
Definition scrape_author_papers (fuel : nat) (env : environment)
    (scholar_link : string) (use_selenium : bool) (max_papers : Z) : M unit :=
  author_id ← get_author_id env None (Some scholar_link);
  items ← fetch_and_parse fuel env (Some author_id) (Some scholar_link);
  st0 ← (fun w => (Return (initial_state w), w));
  st ← scrape_loop env use_selenium max_papers items st0;
  match papers_metadata st with
  | [] => mret tt
  | rows => write_file "papers_metadata.csv" (Table rows)
  end.

(** ** Concrete pages, used to run the functions *)

Module Pages.

Definition div (attrs : list (string * string)) (txt : string) (cs : list element) : element :=
  Element "div" attrs txt cs "".

Definition anchor (attrs : list (string * string)) (txt : string) : element :=
  Element "a" attrs txt [] "".

(** A row of the metadata table: the cell of the name and the cell of the
    value. *)
Definition field_row (name : string) (value_cell : element) : element :=
  div [("class", "gs_scl")] ""
      [div [("class", "gsc_oci_field")] name []; value_cell].

Definition text_cell (txt : string) : element :=
  div [("class", "gsc_oci_value")] txt [].

(** The value cell of "Total citations" as the site renders it: the link
    with the count is inside a nested block. *)
Definition cited_cell (txt : string) : element :=
  div [("class", "gsc_oci_value")] "" [div [] "" [anchor [("href", "/scholar?cites=1")] txt]].

(** A detail page with the given rows and the given artifact links. *)
Definition detail_page (rows : list element) (links : list element) : element :=
  Element "html" [] ""
    [Element "body" [] ""
       [div [("role", "main")] ""
          [div [("id", "gsc_oci_title_wrapper")] ""
             [div [("class", "gsc_oci_title_ggi")] "" links];
           div [("id", "gsc_oci_table")] "" rows]] ""] "".

(** A listing page with one row per title. *)
Definition listing_row (t : string) : element :=
  Element "tr" [("class", "gsc_a_tr")] ""
    [Element "td" [] "" [anchor [("class", "gsc_a_at"); ("href", "/citations?view=" +:+ t)] t] ""] "".

Definition listing_page (titles : list string) : element :=
  Element "html" [] "" [Element "table" [] "" (listing_row <$> titles) ""] "".

(** [urljoin] on the links of these pages: an absolute link is kept, a path
    is appended to the site of the base. *)
Definition join (base rel : string) : string :=
  if PyStr.startswith "http" rel then rel else BASE +:+ rel.

Definition spec_rows : list element :=
  [field_row "Authors" (text_cell "A, B");
   field_row "Publication date" (text_cell "2019");
   field_row "Scholar articles" (text_cell "Foo");
   field_row "Total citations" (cited_cell "Cited by 42")].

(** A detail page whose "Total citations" row holds its text directly in the
    value cell, with no nested element. *)
Definition flat_citations_page : element :=
  detail_page [field_row "Total citations" (text_cell "Cited by 42")] [].

(** Two artifact links: the first is labelled PDF and has no address, the
    second has an address and another label. *)
Definition pdf_without_href : element := anchor [] "[PDF] example.org".
Definition html_link : element := anchor [("href", "https://example.org/paper.html")] "Full text".

End Pages.

Definition no_files : world := {| files := ∅; log := [] |}.


(** ** Concrete authors *)

Module Authors.

Definition profile : string := "https://scholar.google.com/citations?user=AbC123&hl=en".

(** An environment in which every request fails, every file opens and the
    browser fallback raises: the starting point of the environments below. *)
Definition offline : environment :=
  {| search_get := fun _ => RequestFailed;
     citations_get := fun _ _ => RequestFailed;
     article_get := fun _ => RequestFailed;
     pdf_get := fun _ => PdfRequestFailed;
     urljoin := Pages.join;
     open_fails := fun _ => false;
     selenium_fails := fun _ => true;
     cwd := "/home/user/output/author_AbC123" |}.

Definition with_listing (listing : string -> Z -> http_result) (env : environment)
  : environment :=
  {| search_get := search_get env;
     citations_get := listing;
     article_get := article_get env;
     pdf_get := pdf_get env;
     urljoin := urljoin env;
     open_fails := open_fails env;
     selenium_fails := selenium_fails env;
     cwd := cwd env |}.

(** An author without publications: every listing page is empty. *)
Definition nobody : environment :=
  with_listing (fun _ _ => Response 200 (Pages.listing_page [])) offline.

Definition numbered (n : nat) : string := "Paper " +:+ PyStr.str_of_int (Z.of_nat n).

(** An author with exactly 100 publications, for whom the site answers the
    request for the second page with the tail of the list again. *)
Definition hundred : environment :=
  with_listing
    (fun _ cstart =>
       if cstart =? 0 then Response 200 (Pages.listing_page (numbered <$> seq 0 100))
       else Response 200 (Pages.listing_page (numbered <$> seq 80 20)))
    offline.

(** An author with three publications, for whom every later page is empty. *)
Definition three_then_empty : environment :=
  with_listing
    (fun _ cstart =>
       if cstart =? 0 then Response 200 (Pages.listing_page (numbered <$> seq 0 3))
       else Response 200 (Pages.listing_page []))
    offline.

Definition pdf_link : element :=
  Pages.anchor [("href", "https://example.org/paper.pdf")] "[PDF] example.org".

(** Every detail page is [page] and every artifact is served. *)
Definition serving (page : element) : environment :=
  {| search_get := fun _ => RequestFailed;
     citations_get := fun _ _ => RequestFailed;
     article_get := fun _ => Response 200 page;
     pdf_get := fun _ => PdfResponse 200 ["%PDF-1.4"; ""; "body"];
     urljoin := Pages.join;
     open_fails := fun _ => false;
     selenium_fails := fun _ => true;
     cwd := "/home/user/output/author_AbC123" |}.

(** Detail pages dated 2020 with one artifact link. *)
Definition dated_2020 : environment :=
  serving (Pages.detail_page
             [Pages.field_row "Publication date" (Pages.text_cell "2020/5/17")]
             [pdf_link]).

(** Detail pages whose table has no row that the extraction recognizes. *)
Definition unrecognized : environment :=
  serving (Pages.detail_page
             [Pages.field_row "Scholar articles" (Pages.text_cell "Foo")]
             [pdf_link]).

Definition item (t : string) : Item.t :=
  {| Item.title := t; Item.url := "https://scholar.google.com/citations?view=" +:+ t |}.

(** The author's folder with the file that the record of "Foo", dated 2020,
    names. *)
Definition folder_with_foo : world :=
  {| files := {["Foo_2020_.pdf" := Binary ["old"]]}; log := [] |}.

End Authors.

(** What the parameters of a link hold under the key [user]. *)
Definition user_values (link : string) : option (list string) :=
  Url.parse_qs (Url.query link) !! "user".

(** ** Reference points for the loop *)

(** The loop without its [break]: every item is processed. *)
Fixpoint process_all (env : environment) (use_selenium : bool)
    (items : list Item.t) (st : loop_state) : M loop_state :=
  match items with
  | [] => mret st
  | item :: rest =>
      st ← process_item env use_selenium item st;
      process_all env use_selenium rest st
  end.

(** The number of records of a table whose status is [downloaded]. *)
Definition downloaded_records (rows : list paper_record) : Z :=
  Z.of_nat (length (filter (fun r => download_status r = downloaded) rows)).

(** Runs used below: the first run for "Foo" in an empty folder, the run in a
    folder that already holds the file its record names, and the run for a
    page without recognized rows. *)
Definition first_run : outcome loop_state * world :=
  scrape_loop Authors.dated_2020 false (-1) [Authors.item "Foo"]
    (initial_state no_files) no_files.

Definition second_run : outcome loop_state * world :=
  scrape_loop Authors.dated_2020 false (-1) [Authors.item "Foo"]
    (initial_state Authors.folder_with_foo) Authors.folder_with_foo.

Definition unrecognized_run : outcome loop_state * world :=
  scrape_loop Authors.unrecognized false (-1) [Authors.item "Foo"]
    (initial_state no_files) no_files.

(** The run for "Foo" repeated in the folder that the first run left. *)
Definition repeated_run : outcome loop_state * world :=
  scrape_loop Authors.dated_2020 false (-1) [Authors.item "Foo"]
    (initial_state first_run.2) first_run.2.

Definition capped_run : outcome loop_state * world :=
  scrape_loop Authors.dated_2020 false 1 [Authors.item "A"]
    (initial_state no_files) no_files.

(** The local variables at the end of a run that returned. *)
Definition state_of (r : outcome loop_state * world) : loop_state :=
  match r.1 with
  | Return st => st
  | _ => initial_state no_files
  end.

(** The table of a run that returned. *)
Definition table_of (r : outcome loop_state * world) : list paper_record :=
  match r.1 with
  | Return st => papers_metadata st
  | _ => []
  end.

(** ** Invariants and proof support *)

(** The lists that [parse_qs] stores are not empty and hold no blank value. *)
Definition filled (d : gmap string (list string)) : Prop :=
  forall k vs, d !! k = Some vs -> vs ≠ [] /\ Forall (fun v => v ≠ "") vs.

(** Unfolding of the monad of the embedding. *)
Ltac run :=
  repeat (progress (simpl in *;
                    unfold mbind, M_bind, mret, M_ret, raise, emit, write_file in * )).

(** The date of a metadata dict, when present, is a string. *)
Definition dated (m : gmap string value) : Prop :=
  forall v, m !! "publication_date" = Some v -> exists s, v = VStr s.

(** The ways in which one iteration changes the local variables. *)
Inductive item_step (st : loop_state) : loop_state -> Prop :=
  | step_skipped : item_step st st
  | step_already_exists r :
      download_status r = already_exists ->
      pdf_filename r ∈ downloaded_papers st ->
      item_step st {| downloaded_papers := downloaded_papers st;
                      papers_metadata := papers_metadata st ++ [r];
                      downloaded_count := downloaded_count st;
                      skipped_count := skipped_count st + 1 |}
  | step_downloaded r :
      download_status r = downloaded ->
      pdf_filename r ∉ downloaded_papers st ->
      item_step st {| downloaded_papers := {[pdf_filename r]} ∪ downloaded_papers st;
                      papers_metadata := papers_metadata st ++ [r];
                      downloaded_count := downloaded_count st + 1;
                      skipped_count := skipped_count st |}
  | step_failed r :
      download_status r = failed ->
      pdf_filename r ∉ downloaded_papers st ->
      item_step st {| downloaded_papers := downloaded_papers st;
                      papers_metadata := papers_metadata st ++ [r];
                      downloaded_count := downloaded_count st;
                      skipped_count := skipped_count st |}.


(** ** Shapes of strings used in the statements below *)


(** [s] is made of exactly four digits. *)
Definition four_digits (s : string) : bool :=
  match s with
  | String a (String b (String c (String d ""))) =>
      PyStr.is_digit a && PyStr.is_digit b && PyStr.is_digit c && PyStr.is_digit d
  | _ => false
  end.


(** No character of [s] is one of [cs]. *)
Definition avoids (cs : list ascii) (s : string) : bool :=
  PyStr.all_chars (fun c => bool_decide (c ∉ cs)) s.


(** ** Runs of the paginator over several pages *)

(** The pages fetched one after the other from the offset [pagination], each
    request made in the world that the previous one left. *)
Inductive fetched (env : environment) (author_id link : option string)
  : Z -> world -> list (list Item.t) -> world -> Prop :=
  | fetched_nil pagination w : fetched env author_id link pagination w [] w
  | fetched_cons pagination w page w1 pages w2 :
      _fetch_and_parse env author_id link pagination w = (Return page, w1) ->
      fetched env author_id link (pagination + 100) w1 pages w2 ->
      fetched env author_id link pagination w (page :: pages) w2.

(** The test of the loop is false for [page]: nothing is accumulated yet, or
    the page has a last item and it differs from the last accumulated one. *)
Definition goes_on (results page : list Item.t) : Prop :=
  last results = None \/ exists x, last page = Some x /\ last results ≠ Some x.

(** The test is false for each page in turn. *)
Fixpoint keeps_going (results : list Item.t) (pages : list (list Item.t)) : Prop :=
  match pages with
  | [] => True
  | page :: rest => goes_on results page /\ keeps_going (results ++ page) rest
  end.

(** An author with five publications served three then two to a page, for
    whom the request after the last page is answered with the tail again. *)
Definition five_in_two_pages : environment :=
  Authors.with_listing
    (fun _ cstart =>
       if cstart =? 0 then Response 200 (Pages.listing_page (Authors.numbered <$> seq 0 3))
       else if cstart =? 100 then Response 200 (Pages.listing_page (Authors.numbered <$> seq 3 2))
       else Response 200 (Pages.listing_page (Authors.numbered <$> seq 4 1)))
    Authors.offline.

(** ** The schema of the metadata *)

(** The keys that hold a string. *)
Definition text_keys : list string :=
  ["authors"; "publication_date"; "journal"; "volume"; "issue"; "pages";
   "publisher"; "description"].

(** Every key is one of the nine of the schema; the eight text keys hold a
    string and [total_citations_detailed] holds a natural number. *)
Definition well_typed (m : gmap string value) : Prop :=
  forall k v, m !! k = Some v ->
    (k ∈ text_keys /\ exists s, v = VStr s)
    \/ (k = "total_citations_detailed" /\ exists n, v = VInt n /\ 0 <= n).


(** ** Views of the table *)

(** The detail page of [article_url] cannot be had: the request fails or its
    status is not 200. *)
Definition page_unavailable (env : environment) (article_url : string) : Prop :=
  match article_get env article_url with
  | RequestFailed => True
  | Response status_code _ => status_code ≠ 200
  end.

(** What a record keeps of the item it was made for. *)
Definition record_key (r : paper_record) : string * string := (title r, scholar_url r).
Definition item_key (item : Item.t) : string * string := (Item.title item, Item.url item).

(** The file names of the records with a given status. *)
Definition names_with (s : status) (rows : list paper_record) : list string :=
  pdf_filename <$> filter (fun r => download_status r = s) rows.

(** Two listed publications with the same title, in an empty folder. *)
Definition twin_run : outcome loop_state * world :=
  scrape_loop Authors.dated_2020 false (-1) [Authors.item "Foo"; Authors.item "Foo"]
    (initial_state no_files) no_files.

(** ** [load_data_source] *)

Module Source.

(** [s.partition(sep)] when [sep] occurs in [s]: the text before its first
    occurrence and the text after it. *)
Fixpoint cut (sep s : string) : option (string * string) :=
  match PyStr.drop_prefix sep s with
  | Some rest => Some ("", rest)
  | None =>
      match s with
      | "" => None
      | String c s' =>
          match cut sep s' with
          | Some (b, a) => Some (String c b, a)
          | None => None
          end
      end
  end.

(** [s.split(sep)] for a separator that is not empty; [fuel] bounds the
    number of pieces and the length of [s] is enough. *)
Fixpoint split_fuel (fuel : nat) (sep s : string) : list string :=
  match cut sep s with
  | None => [s]
  | Some (b, a) =>
      match fuel with
      | O => [s]
      | S fuel' => b :: split_fuel fuel' sep a
      end
  end.

Definition split (sep s : string) : list string := split_fuel (String.length s) sep s.

(** What the function computes before it reads: the location handed to
    [pd.read_csv], the ValueError of a sheet link without [/d/], or the
    IndexError of a subscript out of range. *)
Inductive located : Type :=
  | ReadCsv (location : string)
  | InvalidSheetUrl
  | SubscriptOutOfRange.

(** [source.split('/d/')[1].split('/')[0]] *)
Definition sheet_id (source : string) : option string :=
  split "/d/" source !! 1%nat ≫= fun tail => head (split "/" tail).

Definition location (source : string) : located :=
  if PyStr.startswith "http" source && PyStr.contains "docs.google.com/spreadsheets" source
  then
    if PyStr.contains "/d/" source then
      match sheet_id source with
      | Some id =>
          ReadCsv ("https://docs.google.com/spreadsheets/d/" +:+ id +:+ "/export?format=csv")
      | None => SubscriptOutOfRange
      end
    else InvalidSheetUrl
  else ReadCsv source.

End Source.

(** ** [scrape_from_source] and [scrape_from_csv] *)

(** A value of the table of authors: missing ([pd.isna]), a string, or any
    other value. *)
Inductive cell : Type := NaN | Text (s : string) | Number.

(** A DataFrame: the names of its columns and its rows; a row gives a cell
    for every name. *)
Record dataframe : Type := {
  columns : list string;
  rows : list (string -> cell)
}.

(** The folders under the directory from which the program runs, with
    their files, and the requests made so far.  A folder that does not
    exist is a folder without files. *)
Record disk : Type := {
  folders : gmap string (gmap string file_content);
  requests : list event
}.

Definition folder_files (d : disk) (folder : string) : gmap string file_content :=
  default ∅ (folders d !! folder).

(** [os.makedirs(folder, exist_ok=True); os.chdir(folder)], the computation,
    and [os.chdir(original_dir)] in the [finally] clause. *)
Definition in_folder {A : Type} (folder : string) (c : M A) (d : disk) : outcome A * disk :=
  let '(o, w') := c {| files := folder_files d folder; log := requests d |} in
  (o, {| folders := <[folder := files w']> (folders d); requests := log w' |}).

(** [params.get("user", [""])[0]] as a value: the identifier that a link
    carries, [""] when it carries none. *)
Definition link_id (link : string) : string :=
  match default [""] (user_values link) with
  | author_id :: _ => author_id
  | [] => ""
  end.

(** [f"output/author_{author_id}"] for the identifier of a link. *)
Definition author_folder (link : string) : string := "output/author_" +:+ link_id link.

(** [scrape_author_papers] called from the directory of the program for a
    link that is not empty: the identifier comes from the link, and what
    the function does before it enters the folder touches no file. *)
Definition scrape_author (fuel : nat) (env : environment) (scholar_link : string)
    (use_selenium : bool) (max_papers : Z) (d : disk) : outcome unit * disk :=
  in_folder (author_folder scholar_link)
    (scrape_author_papers fuel env scholar_link use_selenium max_papers) d.

(** How a batch ends: it finishes, it is still running when the fuel of a
    paginator is spent, or it raises. *)
Inductive batch_outcome : Type :=
  | Finished
  | StillRunning
  | ReadFailed                      (**r [pd.read_csv] raised *)
  | ValueError (message : string)
  | SubscriptError                  (**r IndexError of a subscript *)
  | AttributeError.                 (**r [.strip()] on a value that is not a string *)

(** [', '.join(names)] *)
Fixpoint join_comma (names : list string) : string :=
  match names with
  | [] => ""
  | [n] => n
  | n :: rest => n +:+ ", " +:+ join_comma rest
  end.

(** The column that holds the links, or the ValueError that names the
    columns there are. *)
Definition resolve_column (df : dataframe) (column_name : string) : string + string :=
  if bool_decide (column_name ∈ columns df) then inl column_name
  else if bool_decide ("scholar_link" ∈ columns df) then inl "scholar_link"
  else inr ("Column '" +:+ column_name +:+ "' not found. Available columns: "
            +:+ join_comma (columns df)).

(** [for idx, row in df.iterrows()] *)
Fixpoint scrape_rows (fuel : nat) (env : environment) (use_selenium : bool)
    (max_papers : Z) (column_name : string) (table : list (string -> cell)) (d : disk)
  : batch_outcome * disk :=
  match table with
  | [] => (Finished, d)
  | row :: rest =>
      match row column_name with
      | NaN => scrape_rows fuel env use_selenium max_papers column_name rest d
      | Number => (AttributeError, d)
      | Text scholar_link =>
          match PyStr.strip scholar_link with
          | "" => scrape_rows fuel env use_selenium max_papers column_name rest d
          | _ =>
              match scrape_author fuel env scholar_link use_selenium max_papers d with
              | (OutOfFuel, d') => (StillRunning, d')
              | (_, d') => scrape_rows fuel env use_selenium max_papers column_name rest d'
              end
          end
      end
  end.

(** [read_csv] stands for [pd.read_csv]: the table at a location, or
    nothing when it raises. *)
Definition load_data_source (read_csv : string -> option dataframe) (source : string)
  : batch_outcome + dataframe :=
  match Source.location source with
  | Source.ReadCsv at_location =>
      match read_csv at_location with
      | Some df => inr df
      | None => inl ReadFailed
      end
  | Source.InvalidSheetUrl =>
      inl (ValueError "Invalid Google Sheets URL. Use the shareable link.")
  | Source.SubscriptOutOfRange => inl SubscriptError
  end.

Definition scrape_from_source (fuel : nat) (env : environment)
    (read_csv : string -> option dataframe) (source : string)
    (use_selenium : bool) (max_papers : Z) (column_name : string) (d : disk)
  : batch_outcome * disk :=
  match load_data_source read_csv source with
  | inl e => (e, d)
  | inr df =>
      match resolve_column df column_name with
      | inr message => (ValueError message, d)
      | inl column_name =>
          scrape_rows fuel env use_selenium max_papers column_name (rows df) d
      end
  end.

Definition scrape_from_csv (fuel : nat) (env : environment)
    (read_csv : string -> option dataframe) (csv_file : string)
    (use_selenium : bool) (max_papers : Z) (d : disk) : batch_outcome * disk :=
  scrape_from_source fuel env read_csv csv_file use_selenium max_papers "scholar_link" d.

(** What may follow the identifier of a sheet in its link: nothing, or the
    rest of the path. *)
Definition path_rest (s : string) : bool :=
  match s with
  | "" => true
  | String c _ => bool_decide (c = "/"%char)
  end.

(** ** Concrete tables *)

Definition empty_disk : disk := {| folders := ∅; requests := [] |}.

(** A row whose column [scholar_link] holds [link], or a missing value. *)
Definition row_of (link : option string) : string -> cell :=
  fun column =>
    if bool_decide (column = "scholar_link")
    then match link with Some l => Text l | None => NaN end
    else NaN.

(** A table with a blank link, a missing link and the link of a profile. *)
Definition three_rows : list (string -> cell) :=
  [row_of (Some "   "); row_of None; row_of (Some Authors.profile)].
(** * Properties *)

(** ** Runs of the functions on small inputs *)

Example safe_filename_plain : _safe_filename "Deep learning" default_name = "Deep learning".
Proof. reflexivity. Qed.

Example safe_filename_year : _safe_filename "Foo(2020)" default_name = "Foo_2020_".
Proof. reflexivity. Qed.

Example safe_filename_blank : _safe_filename "   " default_name = "paper".
Proof. reflexivity. Qed.

Example search_cited_by_42 : PyStr.search_cited_by "Cited by 42" = Some "42".
Proof. reflexivity. Qed.

Example search_year : PyStr.search_four_digits "12 May 2019" = Some "2019".
Proof. reflexivity. Qed.

Example parse_qs_profile :
  Url.parse_qs (Url.query "https://scholar.google.com/citations?user=AbC123&hl=en")
  = <["hl" := ["en"]]> (<["user" := ["AbC123"]]> ∅).
Proof. vm_compute. reflexivity. Qed.

Example parse_qs_blank_user :
  Url.parse_qs (Url.query "https://scholar.google.com/citations?user=&hl=en#top")
  = <["hl" := ["en"]]> ∅.
Proof. vm_compute. reflexivity. Qed.

Example extract_spec_page :
  extract_paper_metadata (Pages.detail_page Pages.spec_rows []) no_files
  = (Return (<["authors" := VStr "A, B"]>
               (<["publication_date" := VStr "2019"]>
                  (<["total_citations_detailed" := VInt 42]> ∅))), no_files).
Proof. vm_compute. reflexivity. Qed.

(** ** The file name sanitizer *)

Lemma sub_unsafe_runs_inside (s : string) :
  PyStr.all_chars (fun c => negb (PyStr.safe_char c)) s = true ->
  PyStr.sub_unsafe_runs true s = "".
Proof.
  induction s as [|c s IH]; simpl; [done|].
  intros [Hc Hs]%andb_true_iff.
  apply negb_true_iff in Hc. rewrite Hc. auto.
Qed.

Lemma sub_unsafe_runs_all_unsafe (s : string) :
  s ≠ "" ->
  PyStr.all_chars (fun c => negb (PyStr.safe_char c)) s = true ->
  PyStr.sub_unsafe_runs false s = "_".
Proof.
  destruct s as [|c s]; [done|]. simpl.
  intros _ [Hc Hs]%andb_true_iff.
  apply negb_true_iff in Hc. rewrite Hc.
  by rewrite sub_unsafe_runs_inside.
Qed.

(** C9, as the code has it: a string that is not empty and holds only
    characters outside the safe set is one run of such characters, which the
    substitution turns into a single underscore; the sanitizer returns that
    underscore, whatever the default name is. *)
Theorem safe_filename_all_unsafe (s default : string) :
  s ≠ "" ->
  PyStr.all_chars (fun c => negb (PyStr.safe_char c)) s = true ->
  _safe_filename s default = "_".
Proof.
  intros Hne Hall. unfold _safe_filename.
  by rewrite sub_unsafe_runs_all_unsafe.
Qed.

Lemma safe_filename_all_unsafe_witness :
  _safe_filename "?*<>|" default_name = "_".
Proof. apply safe_filename_all_unsafe; [discriminate | reflexivity]. Defined.

(** C9, as the spec states it, fails: the string of three question marks is
    not empty and holds no safe character, and the sanitizer does not return
    the default name. *)
Lemma safe_filename_all_unsafe_not_default :
  "???" ≠ "" /\
  PyStr.all_chars (fun c => negb (PyStr.safe_char c)) "???" = true /\
  _safe_filename "???" default_name ≠ "paper".
Proof. split; [discriminate|]. split; [reflexivity|]. vm_compute. discriminate. Qed.

(** The default name is what a string of spaces, or the empty string, gives. *)
Lemma safe_filename_spaces (s default : string) :
  PyStr.all_chars (fun c => bool_decide (c = " "%char)) s = true ->
  _safe_filename s default = default.
Proof.
  intros Hall. unfold _safe_filename.
  assert (PyStr.strip (PyStr.sub_unsafe_runs false s) = "") as ->; [|done].
  induction s as [|c s IH]; [done|].
  simpl in Hall. apply andb_true_iff in Hall as [Hc Hs].
  apply bool_decide_eq_true in Hc as ->. simpl. by apply IH.
Qed.

(** ** The paginator *)

Example listing_page_items :
  (_fetch_and_parse Authors.three_then_empty None (Some Authors.profile) 0 no_files).1
  = Return [ {| Item.title := "Paper 0"; Item.url := "https://scholar.google.com/citations?view=Paper 0" |};
             {| Item.title := "Paper 1"; Item.url := "https://scholar.google.com/citations?view=Paper 1" |};
             {| Item.title := "Paper 2"; Item.url := "https://scholar.google.com/citations?view=Paper 2" |} ].
Proof. vm_compute. reflexivity. Qed.

(** C6: when the first page yields 100 items and the last item of the page
    fetched next equals the last accumulated item, [fetch_and_parse] stops
    there and returns exactly the 100 items of the first page. *)
Theorem fetch_and_parse_repeated_tail
    (env : environment) (author_id link : option string)
    (P1 P2 : list Item.t) (w w1 w2 : world) (fuel : nat) :
  _fetch_and_parse env author_id link 0 w = (Return P1, w1) ->
  _fetch_and_parse env author_id link 100 w1 = (Return P2, w2) ->
  length P1 = 100%nat ->
  last P2 = last P1 ->
  (2 <= fuel)%nat ->
  fetch_and_parse fuel env author_id link w = (Return P1, w2).
Proof.
  intros H1 H2 Hlen Hlast Hfuel.
  destruct fuel as [|[|fuel]]; [lia..|].
  assert (exists x, last P1 = Some x) as [x Hx].
  { destruct P1 as [|y P1] using rev_ind; [done|]. rewrite last_snoc. eauto. }
  unfold fetch_and_parse. simpl. unfold mbind, M_bind.
  rewrite H1. simpl. replace (0 + 100) with 100 by lia.
  rewrite H2. unfold repeats_tail. rewrite Hx, Hlast, Hx. simpl.
  by rewrite bool_decide_eq_true_2.
Qed.

Lemma fetch_and_parse_repeated_tail_witness :
  exists P1 w2,
    fetch_and_parse 5 Authors.hundred None (Some Authors.profile) no_files = (Return P1, w2)
    /\ length P1 = 100%nat.
Proof.
  pose (r1 := _fetch_and_parse Authors.hundred None (Some Authors.profile) 0 no_files).
  pose (r2 := _fetch_and_parse Authors.hundred None (Some Authors.profile) 100 r1.2).
  destruct r1 as [o1 w1] eqn:E1. destruct o1 as [P1| |]; try (vm_compute in E1; discriminate).
  destruct r2 as [o2 w2] eqn:E2. destruct o2 as [P2| |]; try (vm_compute in E2; discriminate).
  exists P1, w2.
  assert (length P1 = 100%nat) as Hlen.
  { vm_compute in E1. injection E1 as <- _. reflexivity. }
  split; [|exact Hlen].
  apply (fetch_and_parse_repeated_tail Authors.hundred None (Some Authors.profile)
           P1 P2 no_files w1 w2 5).
  - exact E1.
  - exact E2.
  - exact Hlen.
  - vm_compute in E1, E2. injection E1 as <- _. injection E2 as <- _. reflexivity.
  - lia.
Defined.

Lemma get_author_id_profile (env : environment) (name : option string) :
  get_author_id env name (Some Authors.profile) = mret "AbC123".
Proof.
  unfold get_author_id. change (given (Some Authors.profile)) with (Some Authors.profile).
  vm_compute. reflexivity.
Qed.

(** As long as the pages come back empty and nothing has been accumulated,
    the loop neither returns nor raises: it goes on to the next page. *)
Lemma fetch_and_parse_loop_empty_pages
    (env : environment) (author_id link : option string) :
  (forall pagination w, exists w',
      _fetch_and_parse env author_id link pagination w = (Return [], w')) ->
  forall fuel pagination w,
    (fetch_and_parse_loop fuel env author_id link [] pagination w).1 = OutOfFuel.
Proof.
  intros Hempty fuel. induction fuel as [|fuel IH]; intros pagination w; [done|].
  simpl. unfold mbind, M_bind.
  destruct (Hempty pagination w) as [w' ->]. simpl. apply IH.
Qed.

Lemma nobody_pages_empty (pagination : Z) (w : world) :
  exists w', _fetch_and_parse Authors.nobody None (Some Authors.profile) pagination w
             = (Return [], w').
Proof.
  unfold _fetch_and_parse. rewrite get_author_id_profile.
  eexists. reflexivity.
Qed.

(** C1 on the code: for the author without publications, whatever the fuel,
    [fetch_and_parse] has not returned when the fuel is spent; the loop asks
    for page after page and never ends. *)
Theorem fetch_and_parse_no_publications_never_returns (fuel : nat) (w : world) :
  (fetch_and_parse fuel Authors.nobody None (Some Authors.profile) w).1 = OutOfFuel.
Proof.
  unfold fetch_and_parse.
  apply fetch_and_parse_loop_empty_pages. apply nobody_pages_empty.
Qed.

(** The requests of that run: the offsets 0, 100, 200, ... one after the
    other. *)
Example nobody_requests :
  log (fetch_and_parse 4 Authors.nobody None (Some Authors.profile) no_files).2
  = [GetCitations "AbC123" 0; GetCitations "AbC123" 100;
     GetCitations "AbC123" 200; GetCitations "AbC123" 300].
Proof. vm_compute. reflexivity. Qed.

(** An empty page that follows pages with items makes [items[-1]] raise. *)
Example empty_page_after_items :
  (fetch_and_parse 5 Authors.three_then_empty None (Some Authors.profile) no_files).1
  = Raise IndexError.
Proof. vm_compute. reflexivity. Qed.

(** ** The identity resolver *)

Lemma unquote_nonempty (s : string) : s ≠ "" -> Url.unquote s ≠ "".
Proof.
  destruct s as [|c s]; [done|]. intros _. simpl.
  by destruct (if decide (c = "%"%char) then _ else _).
Qed.

Lemma decode_nonempty (s : string) : s ≠ "" -> Url.decode s ≠ "".
Proof.
  intros Hs. apply unquote_nonempty. by destruct s.
Qed.

Lemma parse_qsl_values (qs : string) :
  Forall (fun p => p.2 ≠ "") (Url.parse_qsl qs).
Proof.
  apply Forall_forall. intros [n v] Hin. unfold Url.parse_qsl in Hin.
  apply list_elem_of_omap in Hin as (nv & _ & Hnv).
  destruct (Url.partition_eq nv) as [n' v']. destruct v' as [|c v']; [done|].
  injection Hnv as <- <-. by apply decode_nonempty.
Qed.

Lemma parse_qs_filled (qs : string) : filled (Url.parse_qs qs).
Proof.
  unfold Url.parse_qs.
  generalize (parse_qsl_values qs).
  assert (filled ∅) as Hd by (intros k vs Hk; by rewrite lookup_empty in Hk).
  revert Hd. generalize (∅ : gmap string (list string)).
  induction (Url.parse_qsl qs) as [|[n v] l IH]; intros d Hd Hl; [done|].
  apply Forall_cons in Hl as [Hv Hl]. simpl. apply IH; [|done].
  intros k vs. destruct (decide (n = k)) as [->|Hne].
  - rewrite lookup_insert_eq. intros [= <-]. split.
    + by destruct (default [] (d !! k)).
    + apply Forall_app. split; [|by apply Forall_singleton].
      destruct (d !! k) as [old|] eqn:Hold; [|by apply Forall_nil].
      by apply (Hd k old).
  - rewrite lookup_insert_ne by done. apply Hd.
Qed.




(** A search whose request fails, or whose page has no result row, raises. *)
Lemma get_author_id_search_raises (env : environment) (name : option string) (w : world) :
  (search_get env name = RequestFailed ->
   (get_author_id env name None w).1 = Raise RequestException)
  /\ (forall status_code tree,
        search_get env name = Response status_code tree ->
        xpath tree [div_with "role" "main"; div_with "class" "gs_r"; ("table", None)] = [] ->
        (get_author_id env name None w).1 = Raise IndexError).
Proof.
  split.
  - intros H. unfold get_author_id. simpl. unfold mbind, M_bind. simpl. by rewrite H.
  - intros st tree H Hx. unfold get_author_id. simpl. unfold mbind, M_bind. simpl.
    rewrite H. by rewrite Hx.
Qed.

(** ** Metadata extraction *)


Example total_citations_42 :
  (extract_paper_metadata
     (Pages.detail_page [Pages.field_row "Total citations" (Pages.cited_cell "Cited by 42")] [])
     no_files).1
  = Return {["total_citations_detailed" := VInt 42]}.
Proof. vm_compute. reflexivity. Qed.

Example total_citations_no_match :
  (extract_paper_metadata
     (Pages.detail_page [Pages.field_row "Total citations" (Pages.cited_cell "Not cited")] [])
     no_files).1
  = Return {["total_citations_detailed" := VInt 0]}.
Proof. vm_compute. reflexivity. Qed.

(** C7 on the code: a "Total citations" row whose value cell holds the text
    "Cited by 42" and no nested element makes the extraction raise
    IndexError, where the claim has it return 42. *)
Theorem extract_paper_metadata_raises_on_flat_citations (w : world) :
  extract_paper_metadata Pages.flat_citations_page w = (Raise IndexError, w).
Proof. reflexivity. Qed.

(** ** The choice of the artifact link *)

Lemma find_first {A : Type} (p : A -> bool) (pre post : list A) (a : A) :
  (forall b, b ∈ pre -> p b = false) -> p a = true ->
  find p (pre ++ a :: post) = Some a.
Proof.
  intros Hpre Ha. induction pre as [|b pre IH]; simpl.
  - by rewrite Ha.
  - rewrite (Hpre b) by apply list_elem_of_here. apply IH.
    intros c Hc. apply Hpre. by apply list_elem_of_further.
Qed.

Lemma find_none {A : Type} (p : A -> bool) (l : list A) :
  (forall b, b ∈ l -> p b = false) -> find p l = None.
Proof.
  intros Hl. induction l as [|b l IH]; simpl; [done|].
  rewrite (Hl b) by apply list_elem_of_here. apply IH.
  intros c Hc. apply Hl. by apply list_elem_of_further.
Qed.

(** C8, as the code has it.  Without a candidate the function returns no
    artifact and keeps the metadata.  A single candidate gives its address.
    Among several candidates the first whose text mentions "pdf" gives its
    address when it has one that is not empty; when no candidate mentions
    "pdf", or when that first one has no address, the address of the last
    candidate is taken. *)
Theorem select_pdf_href_policy :
  (forall env doc article_url paper_title year use_selenium w metadata w',
      extract_paper_metadata doc w = (Return metadata, w') ->
      xpath doc pdf_title_path = [] ->
      download_from_page env doc article_url paper_title year use_selenium w
      = (Return (None, Some metadata), w'))
  /\ (forall anchor, select_pdf_href [anchor] = el_get anchor "href")
  /\ (forall pre anchor post href,
        (1 < length (pre ++ anchor :: post))%nat ->
        (forall b, b ∈ pre -> mentions_pdf b = false) ->
        mentions_pdf anchor = true ->
        el_get anchor "href" = Some href -> href ≠ "" ->
        select_pdf_href (pre ++ anchor :: post) = Some href)
  /\ (forall pre anchor post,
        (1 < length (pre ++ anchor :: post))%nat ->
        (forall b, b ∈ pre -> mentions_pdf b = false) ->
        mentions_pdf anchor = true ->
        given (el_get anchor "href") = None ->
        select_pdf_href (pre ++ anchor :: post)
        = last (pre ++ anchor :: post) ≫= fun a => el_get a "href")
  /\ (forall anchors,
        (1 < length anchors)%nat ->
        (forall b, b ∈ anchors -> mentions_pdf b = false) ->
        select_pdf_href anchors = last anchors ≫= fun a => el_get a "href").
Proof.
  split; [|split; [|split; [|split]]].
  - intros env doc url t y sel w m w' Hm Hx. unfold download_from_page.
    unfold mbind, M_bind. rewrite Hm, Hx. reflexivity.
  - reflexivity.
  - intros pre a post href Hlen Hpre Ha Hhref Hne.
    unfold select_pdf_href. rewrite (find_first _ _ _ _ Hpre Ha), Hhref.
    destruct (pre ++ a :: post) as [|x [|y l]]; simpl in Hlen; [lia..|].
    by destruct href.
  - intros pre a post Hlen Hpre Ha Hhref.
    unfold select_pdf_href. rewrite (find_first _ _ _ _ Hpre Ha), Hhref.
    destruct (pre ++ a :: post) as [|x [|y l]]; simpl in Hlen; [lia..|]. done.
  - intros anchors Hlen Hall.
    unfold select_pdf_href. rewrite (find_none _ _ Hall).
    destruct anchors as [|x [|y l]]; simpl in Hlen; [lia..|]. done.
Qed.

Lemma select_pdf_href_policy_witness :
  select_pdf_href
    [Pages.html_link; Pages.anchor [("href", "/paper.pdf")] "Download PDF"; Pages.html_link]
  = Some "/paper.pdf".
Proof.
  destruct select_pdf_href_policy as (_ & _ & Hfirst & _).
  apply (Hfirst [Pages.html_link] (Pages.anchor [("href", "/paper.pdf")] "Download PDF")
           [Pages.html_link] "/paper.pdf").
  - simpl. lia.
  - intros b Hb. apply list_elem_of_singleton in Hb as ->. reflexivity.
  - reflexivity.
  - reflexivity.
  - discriminate.
Defined.

(** C8, as the spec states it, fails: of these two candidates only the first
    mentions "pdf", yet the address taken is that of the second, the first
    having none. *)
Lemma select_pdf_href_skips_pdf_without_href :
  mentions_pdf Pages.pdf_without_href = true
  /\ mentions_pdf Pages.html_link = false
  /\ select_pdf_href [Pages.pdf_without_href; Pages.html_link]
     = el_get Pages.html_link "href"
  /\ select_pdf_href [Pages.pdf_without_href; Pages.html_link]
     ≠ el_get Pages.pdf_without_href "href".
Proof. repeat split; try reflexivity. vm_compute. discriminate. Qed.

Example select_second_of_two :
  select_pdf_href [Pages.html_link; Pages.anchor [("href", "/paper.pdf")] "Download PDF"]
  = Some "/paper.pdf".
Proof. reflexivity. Qed.

(** ** The loop over the publications *)

Lemma dated_insert_str (k s : string) (m : gmap string value) :
  dated m -> dated (<[k := VStr s]> m).
Proof.
  intros Hm v. destruct (decide (k = "publication_date")) as [->|Hk].
  - rewrite lookup_insert_eq. intros [= <-]. eauto.
  - rewrite lookup_insert_ne by done. apply Hm.
Qed.

Lemma dated_insert_other (k : string) (x : value) (m : gmap string value) :
  k ≠ "publication_date" -> dated m -> dated (<[k := x]> m).
Proof. intros Hk Hm v. rewrite lookup_insert_ne by done. apply Hm. Qed.

Lemma extract_field_dated (field_div : element) (m m' : gmap string value) (w w' : world) :
  extract_field field_div m w = (Return m', w') -> dated m -> dated m'.
Proof.
  unfold extract_field. intros H Hm.
  destruct (xpath_rel field_div [div_with "class" "gsc_oci_field"]) as [|name_el ?];
    [run; by simplify_eq|].
  destruct (xpath_rel field_div [div_with "class" "gsc_oci_value"]) as [|value_el ?];
    [run; by simplify_eq|].
  run.
  destruct (decide (PyStr.strip (text_content name_el) = "Total citations")) as [Htc|Htc].
  - destruct (getchildren value_el); run; [done|]. simplify_eq.
    rewrite Htc. simpl. by apply dated_insert_other.
  - simplify_eq.
    repeat case_decide; auto using dated_insert_str.
Qed.

Lemma extract_fields_dated (fields : list element) (m m' : gmap string value) (w w' : world) :
  extract_fields fields m w = (Return m', w') -> dated m -> dated m'.
Proof.
  revert m w. induction fields as [|f fields IH]; intros m w H Hm.
  - run. by simplify_eq.
  - simpl in H. unfold mbind, M_bind in H.
    destruct (extract_field f m w) as [[m1| |] w1] eqn:E; [|done..].
    eapply IH; [exact H|]. eapply extract_field_dated; eauto.
Qed.

Lemma extract_paper_metadata_dated (doc : element) (m : gmap string value) (w w' : world) :
  extract_paper_metadata doc w = (Return m, w') -> dated m.
Proof.
  intros H. eapply extract_fields_dated; [exact H|].
  intros v Hv. by rewrite lookup_empty in Hv.
Qed.

(** Whatever way [download_from_page] returns, the metadata it hands back is
    the dict that the extraction built. *)
Lemma download_from_page_metadata
    (env : environment) (doc : element) (article_url paper_title : string)
    (year : option Z) (use_selenium : bool) (w w' : world)
    (result : option string) (metadata : option (gmap string value)) :
  download_from_page env doc article_url paper_title year use_selenium w
  = (Return (result, metadata), w') ->
  exists m w1, extract_paper_metadata doc w = (Return m, w1) /\ metadata = Some m.
Proof.
  unfold download_from_page. unfold mbind at 1. unfold M_bind at 1.
  destruct (extract_paper_metadata doc w) as [[m| |] w1]; [|done..].
  intros H. exists m, w1. split; [done|].
  run. repeat case_match; by simplify_eq.
Qed.

Lemma download_metadata_dated
    (env : environment) (article_url paper_title : string)
    (year : option Z) (use_selenium : bool) (w w' : world)
    (result : option string) (m : gmap string value) :
  download_pdf_from_scholar_article env article_url paper_title year use_selenium w
  = (Return (result, Some m), w') ->
  dated m.
Proof.
  unfold download_pdf_from_scholar_article. unfold mbind at 1. unfold M_bind at 1.
  unfold emit at 1. 
  destruct (article_get env article_url) as [|status_code doc]; [run; by intros [=]|].
  destruct (negb (status_code =? 200)); [run; by intros [=]|].
  intros H. apply download_from_page_metadata in H as (m' & w1 & Hm & [= ->]).
  eapply extract_paper_metadata_dated; eauto.
Qed.

Lemma year_of_returns (m : gmap string value) (w : world) :
  dated m -> exists year, year_of m w = (Return year, w).
Proof.
  intros Hm. unfold year_of.
  destruct (m !! "publication_date") as [v|] eqn:Hv; [|by eexists].
  destruct (Hm v Hv) as [s ->].
  destruct (truthy (VStr s)); by eexists.
Qed.

Lemma process_item_step
    (env : environment) (use_selenium : bool) (item : Item.t)
    (st st' : loop_state) (w w' : world) :
  process_item env use_selenium item st w = (Return st', w') -> item_step st st'.
Proof.
  unfold process_item. unfold mbind at 1. unfold M_bind at 1.
  destruct (download_pdf_from_scholar_article _ _ _ _ _ _) as [[[result metadata]| |] w1];
    [|done..].
  destruct (usable metadata) as [m|]; [|run; intros [= <- _]; constructor].
  unfold mbind, M_bind.
  destruct (year_of m w1) as [[year| |] w2]; [|done..].
  destruct (decide (_ ∈ _)) as [Hin|Hin].
  { run. intros [= <- _].
    match goal with
    | |- item_step _ {| papers_metadata := _ ++ [?r] |} =>
        by apply (step_already_exists st r)
    end. }
  destruct (bool_decide _); run; intros [= <- _].
  - match goal with
    | |- item_step _ {| papers_metadata := _ ++ [?r] |} =>
        by apply (step_downloaded st r)
    end.
  - match goal with
    | |- item_step _ {| papers_metadata := _ ++ [?r] |} =>
        by apply (step_failed st r)
    end.
Qed.

(** C4, as the code has it: when the detail page of an item has been
    fetched and the extraction has returned, one record is appended to the
    table if the metadata holds at least one recognized field, and the item
    is skipped without a record if the metadata is an empty dict, as it is
    skipped when the fetch failed and the metadata is None. *)
Theorem process_item_appends_one_record
    (env : environment) (use_selenium : bool) (item : Item.t)
    (st : loop_state) (w w1 : world)
    (result : option string) (metadata : option (gmap string value)) :
  download_pdf_from_scholar_article env (Item.url item) (Item.title item) None use_selenium w
  = (Return (result, metadata), w1) ->
  ((metadata = None \/ metadata = Some ∅) ->
   process_item env use_selenium item st w = (Return st, w1))
  /\ (forall m, metadata = Some m -> m ≠ ∅ ->
      exists r st',
        process_item env use_selenium item st w = (Return st', w1)
        /\ papers_metadata st' = papers_metadata st ++ [r]
        /\ title r = Item.title item
        /\ scholar_url r = Item.url item).
Proof.
  intros Hdl. split.
  - intros Hm. unfold process_item. unfold mbind, M_bind. rewrite Hdl.
    by destruct Hm as [-> | ->].
  - intros m -> Hne.
    destruct (year_of_returns m w1) as [year Hyear].
    { eapply download_metadata_dated; eauto. }
    unfold process_item. unfold mbind, M_bind. rewrite Hdl. simpl.
    destruct (decide (m = ∅)) as [|_]; [done|]. rewrite Hyear.
    destruct (decide (_ ∈ _)); [|destruct (bool_decide _)];
      eexists _, _; (split; [reflexivity|]); done.
Qed.

Lemma process_item_appends_one_record_witness :
  exists r st',
    process_item Authors.dated_2020 false (Authors.item "Foo") (initial_state no_files) no_files
    = (Return st', first_run.2)
    /\ papers_metadata st' = [] ++ [r]
    /\ title r = "Foo"
    /\ scholar_url r = "https://scholar.google.com/citations?view=Foo".
Proof.
  pose proof (process_item_appends_one_record Authors.dated_2020 false (Authors.item "Foo")
                (initial_state no_files) no_files first_run.2
                (Some "/home/user/output/author_AbC123/Foo.pdf")
                (Some {["publication_date" := VStr "2020/5/17"]})) as H.
  destruct H as [_ H]; [vm_compute; reflexivity|].
  apply (H {["publication_date" := VStr "2020/5/17"]}); [reflexivity|].
  intros Heq. apply (f_equal (fun m => m !! "publication_date")) in Heq.
  vm_compute in Heq. discriminate.
Defined.

(** C4, as the spec states it, fails: the detail page is fetched with status
    200, its table has no recognized row, the extraction returns an empty
    dict, and no record reaches the table. *)
Lemma empty_metadata_appends_no_record :
  (download_pdf_from_scholar_article Authors.unrecognized
     (Item.url (Authors.item "Foo")) (Item.title (Authors.item "Foo")) None false no_files).1
  = Return (Some "/home/user/output/author_AbC123/Foo.pdf", Some ∅)
  /\ unrecognized_run.1 = Return (initial_state no_files)
  /\ table_of unrecognized_run = [].
Proof. repeat split; vm_compute; reflexivity. Qed.

(** C5 on the code: for "Foo", dated 2020, the download succeeds; the file
    on disk is Foo.pdf, the name that the title alone gives, while the record
    names Foo_2020_.pdf, the name that the claim expects on disk too. *)
Theorem saved_name_differs_from_recorded_name :
  pdf_name "Foo" (Some 2020) = "Foo_2020_.pdf"
  /\ (pdf_filename <$> table_of first_run) = ["Foo_2020_.pdf"]
  /\ (download_status <$> table_of first_run) = [downloaded]
  /\ log first_run.2 = [GetArticle "https://scholar.google.com/citations?view=Foo";
                        GetPdf "https://example.org/paper.pdf";
                        WriteFile "Foo.pdf"]
  /\ files first_run.2 !! "Foo.pdf" = Some (Binary ["%PDF-1.4"; "body"])
  /\ files first_run.2 !! "Foo_2020_.pdf" = None.
Proof. repeat split; vm_compute; reflexivity. Qed.

(** The part of C5 that holds: the function itself, given a title and a
    year, writes under the name that both give. *)
Example download_with_year_saves_under_year :
  log (download_pdf_from_scholar_article Authors.dated_2020
         "https://scholar.google.com/citations?view=Foo" "Foo" (Some 2020) false no_files).2
  = [GetArticle "https://scholar.google.com/citations?view=Foo";
     GetPdf "https://example.org/paper.pdf";
     WriteFile "Foo_2020_.pdf"].
Proof. vm_compute. reflexivity. Qed.





(** A run repeated in the folder that the first run left finds Foo.pdf there,
    not the name of its record, and downloads again. *)
Example repeated_run_downloads_again :
  bool_decide (glob_pdf (files first_run.2) = {["Foo.pdf"]}) = true
  /\ (download_status <$> table_of repeated_run) = [downloaded]
  /\ log repeated_run.2
     = log first_run.2 ++ [GetArticle "https://scholar.google.com/citations?view=Foo";
                           GetPdf "https://example.org/paper.pdf";
                           WriteFile "Foo.pdf"].
Proof. repeat split; vm_compute; reflexivity. Qed.

(** A name that starts with a dot is in the folder and is not listed. *)
Example hidden_name_not_listed :
  bool_decide (glob_pdf {[".Foo.pdf" := Binary []; "Bar.pdf" := Binary []; "notes.txt" := Binary []]}
               = {["Bar.pdf"]}) = true.
Proof. vm_compute. reflexivity. Qed.

(** ** The cap on the downloads *)

Lemma downloaded_records_snoc (rows : list paper_record) (r : paper_record) :
  downloaded_records (rows ++ [r])
  = downloaded_records rows + (if decide (download_status r = downloaded) then 1 else 0).
Proof.
  unfold downloaded_records. rewrite filter_app, length_app, filter_cons, filter_nil.
  destruct (decide (download_status r = downloaded)); simpl; lia.
Qed.

Lemma item_step_count (st st' : loop_state) :
  item_step st st' ->
  downloaded_records (papers_metadata st') - downloaded_count st'
  = downloaded_records (papers_metadata st) - downloaded_count st
  /\ downloaded_count st <= downloaded_count st' <= downloaded_count st + 1.
Proof.
  intros [|r Hr _|r Hr _|r Hr _]; simpl; [lia|..];
    rewrite downloaded_records_snoc, Hr; simpl; lia.
Qed.

Lemma scrape_loop_unlimited
    (env : environment) (use_selenium : bool) (max_papers : Z)
    (items : list Item.t) (st : loop_state) (w : world) :
  max_papers <= 0 ->
  scrape_loop env use_selenium max_papers items st w
  = process_all env use_selenium items st w.
Proof.
  intros Hmax. revert st w. induction items as [|item rest IH]; intros st w; [done|].
  simpl. assert ((0 <? max_papers) = false) as -> by lia. simpl.
  unfold mbind, M_bind. destruct (process_item _ _ _ _ _) as [[st1| |] w1]; auto.
Qed.

Lemma scrape_loop_stops
    (env : environment) (use_selenium : bool) (max_papers : Z)
    (pre post : list Item.t) (st st1 : loop_state) (w w1 : world) :
  0 < max_papers ->
  scrape_loop env use_selenium max_papers pre st w = (Return st1, w1) ->
  max_papers <= downloaded_count st1 ->
  scrape_loop env use_selenium max_papers (pre ++ post) st w = (Return st1, w1).
Proof.
  intros Hmax. revert st w. induction pre as [|item rest IH]; intros st w Hrun Hcount.
  - run. simplify_eq. destruct post as [|item post]; [done|]. simpl.
    assert ((0 <? max_papers) && (max_papers <=? downloaded_count st1) = true) as -> by lia.
    done.
  - simpl in *. destruct (_ && _); [done|].
    unfold mbind, M_bind in *.
    destruct (process_item _ _ _ _ _) as [[st2| |] w2]; [|done..]. by apply IH.
Qed.

Lemma scrape_loop_continues
    (env : environment) (use_selenium : bool) (max_papers : Z)
    (pre post : list Item.t) (st st1 : loop_state) (w w1 : world) :
  scrape_loop env use_selenium max_papers pre st w = (Return st1, w1) ->
  downloaded_count st1 < max_papers ->
  scrape_loop env use_selenium max_papers (pre ++ post) st w
  = scrape_loop env use_selenium max_papers post st1 w1.
Proof.
  revert st w. induction pre as [|item rest IH]; intros st w Hrun Hcount.
  - run. by simplify_eq.
  - simpl in *. destruct (_ && _) eqn:Hbreak.
    { run. simplify_eq. lia. }
    unfold mbind, M_bind in *.
    destruct (process_item _ _ _ _ _) as [[st2| |] w2]; [|done..]. by apply IH.
Qed.

Lemma scrape_loop_count
    (env : environment) (use_selenium : bool) (max_papers : Z)
    (items : list Item.t) (st st' : loop_state) (w w' : world) :
  scrape_loop env use_selenium max_papers items st w = (Return st', w') ->
  downloaded_records (papers_metadata st') - downloaded_count st'
  = downloaded_records (papers_metadata st) - downloaded_count st
  /\ (0 < max_papers -> downloaded_count st' <= Z.max max_papers (downloaded_count st)).
Proof.
  revert st w. induction items as [|item rest IH]; intros st w Hrun.
  - run. simplify_eq. lia.
  - simpl in Hrun. destruct (_ && _) eqn:Hbreak.
    { run. simplify_eq. lia. }
    unfold mbind, M_bind in Hrun.
    destruct (process_item _ _ _ _ _) as [[st1| |] w1] eqn:Hitem; [|done..].
    apply process_item_step, item_step_count in Hitem as [Heq Hle].
    destruct (IH _ _ Hrun) as [Heq' Hle']. split; [lia|].
    intros Hmax. specialize (Hle' Hmax). lia.
Qed.

(** C10: a cap that is not strictly positive is no cap, and the loop
    processes every item as the loop without [break] does.  With a strictly
    positive cap, once the count of downloads has reached the cap after some
    items, the items that follow are not processed, and as long as the count
    is below the cap the loop goes on with them.  The count is the number of
    records with status [downloaded], and it never exceeds a strictly
    positive cap. *)
Theorem max_papers_cap (env : environment) (use_selenium : bool) :
  (forall max_papers items st w,
      max_papers <= 0 ->
      scrape_loop env use_selenium max_papers items st w
      = process_all env use_selenium items st w)
  /\ (forall max_papers pre post st w st1 w1,
        0 < max_papers ->
        scrape_loop env use_selenium max_papers pre st w = (Return st1, w1) ->
        (max_papers <= downloaded_count st1 ->
         scrape_loop env use_selenium max_papers (pre ++ post) st w = (Return st1, w1))
        /\ (downloaded_count st1 < max_papers ->
            scrape_loop env use_selenium max_papers (pre ++ post) st w
            = scrape_loop env use_selenium max_papers post st1 w1))
  /\ (forall max_papers items w st' w',
        scrape_loop env use_selenium max_papers items (initial_state w) w = (Return st', w') ->
        downloaded_count st' = downloaded_records (papers_metadata st')
        /\ (0 < max_papers -> downloaded_count st' <= max_papers)).
Proof.
  split; [|split].
  - intros. by apply scrape_loop_unlimited.
  - intros max_papers pre post st w st1 w1 Hmax Hrun. split; intros Hcount.
    + by apply scrape_loop_stops.
    + by apply scrape_loop_continues.
  - intros max_papers items w st' w' Hrun.
    apply scrape_loop_count in Hrun as [Heq Hle]. simpl in *.
    unfold downloaded_records in Heq at 2. simpl in Heq. split; [lia|].
    intros Hmax. specialize (Hle Hmax). lia.
Qed.

Lemma max_papers_cap_witness :
  scrape_loop Authors.dated_2020 false 1 ([Authors.item "A"] ++ [Authors.item "B"])
    (initial_state no_files) no_files
  = (Return (state_of capped_run), capped_run.2)
  /\ scrape_loop Authors.dated_2020 false 0 [Authors.item "A"; Authors.item "B"]
       (initial_state no_files) no_files
     = process_all Authors.dated_2020 false [Authors.item "A"; Authors.item "B"]
         (initial_state no_files) no_files.
Proof.
  destruct (max_papers_cap Authors.dated_2020 false) as (Hall & Hcap & _).
  split;
    [|apply (Hall 0 [Authors.item "A"; Authors.item "B"] (initial_state no_files) no_files);
      lia].
  destruct (Hcap 1 [Authors.item "A"] [Authors.item "B"] (initial_state no_files) no_files
              (state_of capped_run) capped_run.2) as [Hstop _].
  - lia.
  - vm_compute. reflexivity.
  - apply Hstop. vm_compute. discriminate.
Defined.

(** With a cap of 1 the second item is not requested; with a cap of 0 both
    items are. *)
Example cap_of_one :
  log (scrape_loop Authors.dated_2020 false 1 [Authors.item "A"; Authors.item "B"]
         (initial_state no_files) no_files).2
  = [GetArticle "https://scholar.google.com/citations?view=A";
     GetPdf "https://example.org/paper.pdf"; WriteFile "A.pdf"].
Proof. vm_compute. reflexivity. Qed.

Example cap_of_zero :
  log (scrape_loop Authors.dated_2020 false 0 [Authors.item "A"; Authors.item "B"]
         (initial_state no_files) no_files).2
  = [GetArticle "https://scholar.google.com/citations?view=A";
     GetPdf "https://example.org/paper.pdf"; WriteFile "A.pdf";
     GetArticle "https://scholar.google.com/citations?view=B";
     GetPdf "https://example.org/paper.pdf"; WriteFile "B.pdf"].
Proof. vm_compute. reflexivity. Qed.

(** * Further properties of the code *)

Set Warnings "-clear-no-such-hyp".

(** ** [_safe_filename]: what every result looks like *)

Lemma all_chars_sub_unsafe_runs (in_run : bool) (s : string) :
  PyStr.all_chars PyStr.safe_char (PyStr.sub_unsafe_runs in_run s) = true.
Proof.
  revert in_run. induction s as [|c s IH]; intros in_run; [done|]. simpl.
  destruct (PyStr.safe_char c) eqn:Hc; simpl.
  - by rewrite Hc, IH.
  - destruct in_run; simpl; by rewrite IH.
Qed.

Lemma sub_unsafe_runs_safe (in_run : bool) (s : string) :
  PyStr.all_chars PyStr.safe_char s = true -> PyStr.sub_unsafe_runs in_run s = s.
Proof.
  revert in_run. induction s as [|c s IH]; intros in_run; [done|]. simpl.
  intros [Hc Hs]%andb_true_iff. rewrite Hc. by rewrite IH.
Qed.

Lemma all_chars_lstrip (p : ascii -> bool) (s : string) :
  PyStr.all_chars p s = true -> PyStr.all_chars p (PyStr.lstrip s) = true.
Proof.
  induction s as [|c s IH]; [done|]. simpl.
  intros [Hc Hs]%andb_true_iff. destruct (PyStr.is_space c); [auto|].
  simpl. by rewrite Hc, Hs.
Qed.

Lemma all_chars_rstrip (p : ascii -> bool) (s : string) :
  PyStr.all_chars p s = true -> PyStr.all_chars p (PyStr.rstrip s) = true.
Proof.
  induction s as [|c s IH]; [done|]. simpl.
  intros [Hc Hs]%andb_true_iff. specialize (IH Hs).
  destruct (PyStr.rstrip s) as [|d r].
  - destruct (PyStr.is_space c); [done|]. simpl. by rewrite Hc.
  - change (PyStr.all_chars p (String c (String d r))) with
      (p c && PyStr.all_chars p (String d r)). by rewrite Hc, IH.
Qed.

Lemma rstrip_rstrip (s : string) : PyStr.rstrip (PyStr.rstrip s) = PyStr.rstrip s.
Proof.
  induction s as [|c s IH]; [done|]. simpl.
  destruct (PyStr.rstrip s) as [|d r] eqn:Hr.
  - destruct (PyStr.is_space c) eqn:Hc; [done|]. simpl. by rewrite Hc.
  - change (PyStr.rstrip (String c (String d r))) with
      (match PyStr.rstrip (String d r) with
       | "" => if PyStr.is_space c then "" else String c ""
       | r' => String c r'
       end).
    by rewrite IH.
Qed.

(** A string that does not start with a space keeps its first character
    under [rstrip]. *)
Lemma lstrip_rstrip (s : string) :
  PyStr.lstrip s = s -> PyStr.lstrip (PyStr.rstrip s) = PyStr.rstrip s.
Proof.
  destruct s as [|c s]; [done|]. simpl.
  destruct (PyStr.is_space c) eqn:Hc.
  - intros Heq. exfalso.
    assert (forall t, String.length (PyStr.lstrip t) <= String.length t)%nat as Hlen.
    { induction t as [|d t IHt]; simpl; [lia|]. destruct (PyStr.is_space d); simpl; lia. }
    specialize (Hlen s). rewrite Heq in Hlen. simpl in Hlen. lia.
  - intros _. destruct (PyStr.rstrip s); simpl; by rewrite Hc.
Qed.

Lemma lstrip_lstrip (s : string) : PyStr.lstrip (PyStr.lstrip s) = PyStr.lstrip s.
Proof.
  induction s as [|c s IH]; [done|]. simpl.
  destruct (PyStr.is_space c) eqn:Hc; [done|]. simpl. by rewrite Hc.
Qed.

Lemma strip_strip (s : string) : PyStr.strip (PyStr.strip s) = PyStr.strip s.
Proof.
  unfold PyStr.strip.
  rewrite (lstrip_rstrip (PyStr.lstrip s)) by apply lstrip_lstrip.
  apply rstrip_rstrip.
Qed.

Lemma safe_filename_shape (name : string) :
  PyStr.all_chars PyStr.safe_char (_safe_filename name default_name) = true
  /\ PyStr.strip (_safe_filename name default_name) = _safe_filename name default_name.
Proof.
  unfold _safe_filename.
  pose proof (all_chars_rstrip _ _ (all_chars_lstrip _ _ (all_chars_sub_unsafe_runs false name)))
    as Hsafe.
  pose proof (strip_strip (PyStr.sub_unsafe_runs false name)) as Hstrip.
  fold (PyStr.strip (PyStr.sub_unsafe_runs false name)) in Hsafe.
  by destruct (PyStr.strip (PyStr.sub_unsafe_runs false name)) as [|c r].
Qed.

(** X1: every name that [_safe_filename] returns with its default is made of
    characters of the safe set only (no path separator among them), is not
    empty, and has no white space at either end. *)
Theorem safe_filename_is_safe (name : string) :
  PyStr.all_chars PyStr.safe_char (_safe_filename name default_name) = true
  /\ _safe_filename name default_name ≠ ""
  /\ PyStr.strip (_safe_filename name default_name) = _safe_filename name default_name.
Proof.
  destruct (safe_filename_shape name) as [Hsafe Hstrip].
  split; [done|]. split; [|done].
  unfold _safe_filename, default_name. destruct (PyStr.strip (PyStr.sub_unsafe_runs false name)); intros ?; discriminate.
Qed.

(** X2: sanitizing is idempotent: a sanitized name is left as it is. *)
Theorem safe_filename_idempotent (name : string) :
  _safe_filename (_safe_filename name default_name) default_name
  = _safe_filename name default_name.
Proof.
  destruct (safe_filename_shape name) as [Hsafe Hstrip].
  assert (_safe_filename name default_name ≠ "") as Hne.
  { unfold _safe_filename, default_name. destruct (PyStr.strip (PyStr.sub_unsafe_runs false name)); intros ?; discriminate. }
  generalize dependent (_safe_filename name default_name). intros r Hsafe Hstrip Hne.
  unfold _safe_filename. rewrite sub_unsafe_runs_safe by done. rewrite Hstrip.
  by destruct r.
Qed.

(** ** Numbers in the pages: [int], [str] and the two regular expressions *)

Lemma int_digits_pos (d : Decimal.uint) (p : positive) :
  PyStr.int_digits (Z.pos p) (NilEmpty.string_of_uint d) = Z.pos (Pos.of_uint_acc d p).
Proof.
  revert p. induction d; intros p; simpl; [done|..]; rewrite <- IHd; f_equal;
    unfold PyStr.code; simpl; lia.
Qed.

Lemma int_digits_zero (d : Decimal.uint) :
  PyStr.int_digits 0 (NilEmpty.string_of_uint d) = Z.of_N (Pos.of_uint d).
Proof.
  induction d; simpl; [done|done|..]; by rewrite <- int_digits_pos.
Qed.

(** [int(str(n)) == n] for every natural number. *)
Lemma int_str_of_int (n : Z) : 0 <= n -> PyStr.int (PyStr.str_of_int n) = n.
Proof.
  intros Hn. unfold PyStr.int, PyStr.str_of_int.
  destruct n as [|p|p]; [done| |lia]. simpl.
  assert (PyStr.int_digits 0 (NilZero.string_of_uint (Pos.to_uint p))
          = Z.of_N (Pos.of_uint (Pos.to_uint p))) as ->.
  { destruct (Pos.to_uint p) eqn:E; rewrite <- int_digits_zero; reflexivity. }
  by rewrite DecimalPos.Unsigned.of_to.
Qed.

Lemma app_String (c : ascii) (s t : string) : String c s +:+ t = String c (s +:+ t).
Proof. reflexivity. Qed.

Lemma app_empty (t : string) : "" +:+ t = t.
Proof. reflexivity. Qed.





Lemma search_cited_by_unfold (s : string) :
  PyStr.search_cited_by s
  = match PyStr.drop_prefix "Cited by " s with
    | Some (String c r) =>
        if PyStr.is_digit c then Some (PyStr.digits_prefix (String c r))
        else match s with "" => None | String _ s' => PyStr.search_cited_by s' end
    | _ => match s with "" => None | String _ s' => PyStr.search_cited_by s' end
    end.
Proof. by destruct s. Qed.




Lemma four_digit_years (y : Z) : 1000 <= y <= 9999 -> four_digits (PyStr.str_of_int y) = true.
Proof.
  intros Hy.
  assert (1 <= y / 1000 <= 9) as Hq by (Z.to_euclidean_division_equations; lia).
  assert (0 <= y mod 1000 < 1000) as Hr by (Z.to_euclidean_division_equations; lia).
  pose proof (Z.div_mod y 1000 ltac:(lia)) as Hdm.
  assert (In (Z.to_nat (y / 1000)) (seq 1 9)) as Hin1 by (apply in_seq; lia).
  assert (In (Z.to_nat (y mod 1000)) (seq 0 1000)) as Hin2 by (apply in_seq; lia).
  assert (forallb (fun t =>
            forallb (fun r => four_digits (PyStr.str_of_int (1000 * Z.of_nat t + Z.of_nat r)))
                    (seq 0 1000))
            (seq 1 9) = true)
    as Hall by (vm_compute; reflexivity).
  rewrite forallb_forall in Hall.
  specialize (Hall _ Hin1). rewrite forallb_forall in Hall.
  specialize (Hall _ Hin2).
  rewrite !Z2Nat.id in Hall by (clear Hall; lia).
  by rewrite <- Hdm in Hall.
Qed.

Lemma search_four_digits_prefix (s rest : string) :
  four_digits s = true -> PyStr.search_four_digits (s +:+ rest) = Some s.
Proof.
  destruct s as [|a [|b [|c [|d [|e s]]]]]; try done.
  intros H. rewrite !app_String, app_empty. simpl in *. by rewrite H.
Qed.

(** X4: the year is read back from the date.  For a date that starts with
    a year between 1000 and 9999, whatever follows, the year that names the
    file is that year. *)
Theorem year_of_dated_metadata
    (metadata : gmap string value) (y : Z) (rest : string) (w : world) :
  1000 <= y <= 9999 ->
  metadata !! "publication_date" = Some (VStr (PyStr.str_of_int y +:+ rest)) ->
  year_of metadata w = (Return (Some y), w).
Proof.
  intros Hy Hdate. unfold year_of. rewrite Hdate.
  pose proof (four_digit_years y Hy) as H4.
  assert (truthy (VStr (PyStr.str_of_int y +:+ rest)) = true) as ->.
  { simpl. destruct (PyStr.str_of_int y); [done|]. by rewrite app_String. }
  rewrite search_four_digits_prefix by done. simpl.
  by rewrite int_str_of_int by lia.
Qed.

Lemma year_of_dated_metadata_witness :
  year_of {["publication_date" := VStr ("2019" +:+ "/5/17")]} no_files
  = (Return (Some 2019), no_files).
Proof.
  apply (year_of_dated_metadata _ 2019 "/5/17"); [lia | reflexivity].
Defined.

(** ** Links of profiles *)



Lemma avoids_cons (cs : list ascii) (c : ascii) (s : string) :
  avoids cs (String c s) = true -> (c ∉ cs) /\ avoids cs s = true.
Proof.
  unfold avoids. simpl. intros [Hc Hs]%andb_true_iff.
  by apply bool_decide_eq_true in Hc.
Qed.








Lemma partition_eq_app (s t : string) :
  avoids ["="%char] s = true -> Url.partition_eq (s +:+ String "=" t) = (s, t).
Proof.
  induction s as [|c s IH].
  - intros _. by rewrite app_empty.
  - intros [Hc Hs]%avoids_cons. rewrite app_String. simpl.
    rewrite decide_False by set_solver. by rewrite IH.
Qed.



Lemma app_empty_r (s : string) : s +:+ "" = s.
Proof. induction s as [|c s IH]; [done|]. by rewrite app_String, IH. Qed.

Lemma app_assoc_str (s t u : string) : (s +:+ t) +:+ u = s +:+ (t +:+ u).
Proof. induction s as [|c s IH]; [done|]. by rewrite !app_String, IH. Qed.





(** ** The paginator over any number of pages *)

Lemma repeats_tail_goes_on (results page : list Item.t) (w : world) :
  goes_on results page -> repeats_tail results page w = (Return false, w).
Proof.
  unfold repeats_tail. intros [-> | (x & -> & Hne)]; [done|].
  destruct (last results) as [r|]; [|done].
  rewrite bool_decide_eq_false_2; [done|]. by intros ->.
Qed.

Lemma fetched_app_inv
    (env : environment) (author_id link : option string)
    (pages rest : list (list Item.t)) (pagination : Z) (w w' : world) :
  fetched env author_id link pagination w (pages ++ rest) w' ->
  exists w1,
    fetched env author_id link pagination w pages w1
    /\ fetched env author_id link (pagination + 100 * Z.of_nat (length pages)) w1 rest w'.
Proof.
  revert pagination w. induction pages as [|page pages IH]; intros pagination w Hf.
  - exists w. split; [constructor|].
    by replace (pagination + 100 * Z.of_nat (length (@nil (list Item.t)))) with pagination
      by (simpl; lia).
  - simpl in Hf. inversion Hf as [|? ? ? w1 ? ? Hpage Hrest]; subst.
    destruct (IH _ _ Hrest) as (w2 & Hpages & Htail).
    exists w2. split; [by econstructor|].
    replace (pagination + 100 * Z.of_nat (length (page :: pages)))
      with (pagination + 100 + 100 * Z.of_nat (length pages)); [done|].
    simpl length. lia.
Qed.

(** As long as the test of the loop is false, the loop accumulates the pages
    and moves the offset by 100 for each. *)
Lemma fetch_and_parse_loop_accumulates
    (env : environment) (author_id link : option string)
    (pages : list (list Item.t)) (results : list Item.t)
    (pagination : Z) (w w' : world) (fuel : nat) :
  fetched env author_id link pagination w pages w' ->
  keeps_going results pages ->
  fetch_and_parse_loop (length pages + fuel) env author_id link results pagination w
  = fetch_and_parse_loop fuel env author_id link (results ++ concat pages)
      (pagination + 100 * Z.of_nat (length pages)) w'.
Proof.
  intros Hf. revert results. induction Hf as [p w|p w page w1 pages w2 Hpage Hrest IH];
    intros results Hgo.
  - replace (p + 100 * Z.of_nat (length (@nil (list Item.t)))) with p by (simpl; lia).
    simpl. by rewrite app_nil_r.
  - destruct Hgo as [Hgo Hkeep]. simpl.
    unfold mbind at 1. unfold M_bind at 1. rewrite Hpage.
    unfold mbind at 1. unfold M_bind at 1. rewrite (repeats_tail_goes_on _ _ _ Hgo).
    rewrite (IH _ Hkeep). rewrite <- app_assoc.
    replace (p + 100 + 100 * Z.of_nat (length pages))
      with (p + 100 * Z.of_nat (S (length pages))) by lia.
    reflexivity.
Qed.

(** X6: the paginator returns the pages up to the first repeat.  When the
    pages at the offsets 0, 100, ... are fetched one after the other, the
    test of the loop is false for each of [pages], and the page that follows
    ends with the item that ends the accumulated list, [fetch_and_parse]
    returns the concatenation of [pages], in order, without that last page. *)
Theorem fetch_and_parse_returns_pages
    (env : environment) (author_id link : option string)
    (pages : list (list Item.t)) (final : list Item.t) (x : Item.t)
    (w w' : world) (fuel : nat) :
  fetched env author_id link 0 w (pages ++ [final]) w' ->
  keeps_going [] pages ->
  last (concat pages) = Some x ->
  last final = Some x ->
  (length pages < fuel)%nat ->
  fetch_and_parse fuel env author_id link w = (Return (concat pages), w').
Proof.
  intros Hf Hgo Hlast Hfinal Hfuel.
  apply fetched_app_inv in Hf as (w1 & Hpages & Htail).
  inversion Htail as [|? ? ? ? ? ? Hpage Hnil]; subst. inversion Hnil; subst.
  unfold fetch_and_parse.
  replace fuel with (length pages + S (fuel - length pages - 1))%nat by lia.
  rewrite (fetch_and_parse_loop_accumulates _ _ _ _ _ _ _ _ _ Hpages Hgo).
  simpl. unfold mbind at 1. unfold M_bind at 1. rewrite Hpage.
  unfold mbind, M_bind, repeats_tail. rewrite Hlast, Hfinal.
  by rewrite bool_decide_eq_true_2.
Qed.

Lemma fetch_and_parse_returns_pages_witness :
  exists w',
    fetch_and_parse 7 five_in_two_pages None (Some Authors.profile) no_files
    = (Return (concat [Authors.item <$> ["Paper 0"; "Paper 1"; "Paper 2"];
                       Authors.item <$> ["Paper 3"; "Paper 4"]]), w').
Proof.
  eexists.
  apply (fetch_and_parse_returns_pages five_in_two_pages None (Some Authors.profile)
           [Authors.item <$> ["Paper 0"; "Paper 1"; "Paper 2"];
            Authors.item <$> ["Paper 3"; "Paper 4"]]
           [Authors.item "Paper 4"] (Authors.item "Paper 4")).
  - repeat (eapply fetched_cons; [vm_compute; reflexivity|]). apply fetched_nil.
  - split; [by left|]. split; [|done].
    right. exists (Authors.item "Paper 4"). split; [reflexivity|]. vm_compute. discriminate.
  - reflexivity.
  - reflexivity.
  - simpl. lia.
Defined.

(** X7: an empty page after items makes the paginator raise.  When the
    pages fetched so far have been accumulated and are not all empty, and the
    next page has no row, [items[-1]] raises IndexError: the accumulated
    items are lost to the caller. *)
Theorem fetch_and_parse_empty_page_raises
    (env : environment) (author_id link : option string)
    (pages : list (list Item.t)) (w w' : world) (fuel : nat) :
  fetched env author_id link 0 w (pages ++ [[]]) w' ->
  keeps_going [] pages ->
  concat pages ≠ [] ->
  (length pages < fuel)%nat ->
  fetch_and_parse fuel env author_id link w = (Raise IndexError, w').
Proof.
  intros Hf Hgo Hne Hfuel.
  apply fetched_app_inv in Hf as (w1 & Hpages & Htail).
  inversion Htail as [|? ? ? ? ? ? Hpage Hnil]; subst. inversion Hnil; subst.
  unfold fetch_and_parse.
  replace fuel with (length pages + S (fuel - length pages - 1))%nat by lia.
  rewrite (fetch_and_parse_loop_accumulates _ _ _ _ _ _ _ _ _ Hpages Hgo).
  simpl. unfold mbind at 1. unfold M_bind at 1. rewrite Hpage.
  unfold mbind, M_bind, repeats_tail.
  destruct (last (concat pages)) as [r|] eqn:Hlast; [done|].
  by apply last_None in Hlast.
Qed.

Lemma fetch_and_parse_empty_page_raises_witness :
  exists w',
    fetch_and_parse 4 Authors.three_then_empty None (Some Authors.profile) no_files
    = (Raise IndexError, w').
Proof.
  eexists.
  apply (fetch_and_parse_empty_page_raises Authors.three_then_empty None (Some Authors.profile)
           [Authors.item <$> ["Paper 0"; "Paper 1"; "Paper 2"]]).
  - repeat (eapply fetched_cons; [vm_compute; reflexivity|]). apply fetched_nil.
  - split; [by left|done].
  - discriminate.
  - simpl. lia.
Defined.

(** X8: [fetch_and_parse] never returns an empty list: the only exit of the
    loop requires an accumulated item, so for an author without publications
    the function raises or does not return. *)
Theorem fetch_and_parse_never_returns_empty
    (fuel : nat) (env : environment) (author_id link : option string)
    (results : list Item.t) (w w' : world) :
  fetch_and_parse fuel env author_id link w = (Return results, w') -> results ≠ [].
Proof.
  unfold fetch_and_parse. generalize (@nil Item.t) at 1. generalize 0.
  revert w. induction fuel as [|fuel IH]; intros w pagination acc; [done|].
  simpl. unfold mbind at 1. unfold M_bind at 1.
  destruct (_fetch_and_parse _ _ _ _ _) as [[items| |] w1]; [|done..].
  unfold mbind at 1. unfold M_bind at 1. unfold repeats_tail.
  destruct (last acc) as [r|] eqn:Hacc.
  - destruct (last items) as [i|]; [|done]. unfold mret, M_ret.
    destruct (bool_decide (r = i)).
    + intros [= <- _]. intros ->. done.
    + apply IH.
  - apply IH.
Qed.

Lemma fetch_and_parse_never_returns_empty_witness :
  exists first rest,
    Authors.item <$> ["Paper 0"; "Paper 1"; "Paper 2"; "Paper 3"; "Paper 4"] = first :: rest.
Proof.
  destruct (fetch_and_parse 7 five_in_two_pages None (Some Authors.profile) no_files)
    as [o w'] eqn:Hrun.
  assert (Authors.item <$> ["Paper 0"; "Paper 1"; "Paper 2"; "Paper 3"; "Paper 4"] ≠ []) as Hne.
  { apply (fetch_and_parse_never_returns_empty 7 five_in_two_pages None (Some Authors.profile)
             _ no_files w').
    rewrite Hrun. vm_compute in Hrun. by injection Hrun as <- _. }
  destruct (Authors.item <$> _) as [|first rest]; [done|]. by eexists _, _.
Defined.

(** ** The metadata that the extraction builds *)

Lemma all_digits_digits_prefix (s : string) :
  PyStr.all_chars PyStr.is_digit (PyStr.digits_prefix s) = true.
Proof.
  induction s as [|c s IH]; [done|]. simpl.
  destruct (PyStr.is_digit c) eqn:Hc; [|done]. simpl. by rewrite Hc, IH.
Qed.

Lemma search_cited_by_digits (s d : string) :
  PyStr.search_cited_by s = Some d -> PyStr.all_chars PyStr.is_digit d = true.
Proof.
  induction s as [|c s IH]; [by intros [=]|]. rewrite search_cited_by_unfold.
  destruct (PyStr.drop_prefix _ _) as [[|a r]|]; [auto| |auto].
  destruct (PyStr.is_digit a) eqn:Ha; [|auto].
  intros [= <-]. apply (all_digits_digits_prefix (String a r)).
Qed.

Lemma int_digits_nonneg (s : string) (acc : Z) :
  0 <= acc -> PyStr.all_chars PyStr.is_digit s = true -> 0 <= PyStr.int_digits acc s.
Proof.
  revert acc. induction s as [|c s IH]; intros acc Hacc; [done|]. simpl.
  intros [Hc Hs]%andb_true_iff. apply IH; [|done].
  unfold PyStr.is_digit, PyStr.between in Hc.
  apply andb_true_iff in Hc as [Hlo _]. apply N.leb_le in Hlo.
  change (PyStr.code "0") with 48%N in Hlo. lia.
Qed.

Lemma well_typed_insert_text (k s : string) (m : gmap string value) :
  k ∈ text_keys -> well_typed m -> well_typed (<[k := VStr s]> m).
Proof.
  intros Hk Hm k' v. destruct (decide (k = k')) as [->|Hne].
  - rewrite lookup_insert_eq. intros [= <-]. left. eauto.
  - rewrite lookup_insert_ne by done. apply Hm.
Qed.

Lemma well_typed_insert_count (n : Z) (m : gmap string value) :
  0 <= n -> well_typed m -> well_typed (<["total_citations_detailed" := VInt n]> m).
Proof.
  intros Hn Hm k' v. destruct (decide ("total_citations_detailed" = k')) as [<-|Hne].
  - rewrite lookup_insert_eq. intros [= <-]. right. eauto.
  - rewrite lookup_insert_ne by done. apply Hm.
Qed.

Lemma extract_field_well_typed
    (field_div : element) (m m' : gmap string value) (w w' : world) :
  extract_field field_div m w = (Return m', w') -> well_typed m -> well_typed m' /\ w' = w.
Proof.
  unfold extract_field. intros H Hm.
  destruct (xpath_rel field_div [div_with "class" "gsc_oci_field"]) as [|name_el ?];
    [run; by simplify_eq|].
  destruct (xpath_rel field_div [div_with "class" "gsc_oci_value"]) as [|value_el ?];
    [run; by simplify_eq|].
  run.
  destruct (decide (PyStr.strip (text_content name_el) = "Total citations")) as [Htc|Htc].
  - destruct (getchildren value_el) as [|child ?]; run; [done|]. simplify_eq.
    rewrite Htc. simpl. split; [|done]. apply well_typed_insert_count; [|done].
    destruct (PyStr.search_cited_by (text_content child)) as [d|] eqn:Hd; [|done].
    apply int_digits_nonneg; [done|]. by eapply search_cited_by_digits.
  - simplify_eq. split; [|done].
    repeat case_decide; try done; apply well_typed_insert_text; try done;
      unfold text_keys; set_solver.
Qed.

Lemma extract_fields_well_typed
    (fields : list element) (m m' : gmap string value) (w w' : world) :
  extract_fields fields m w = (Return m', w') -> well_typed m -> well_typed m' /\ w' = w.
Proof.
  revert m w. induction fields as [|f fields IH]; intros m w H Hm.
  - run. by simplify_eq.
  - simpl in H. unfold mbind, M_bind in H.
    destruct (extract_field f m w) as [[m1| |] w1] eqn:E; [|done..].
    apply extract_field_well_typed in E as [Hm1 ->]; [|done]. eauto.
Qed.

(** X9: the dict that [extract_paper_metadata] returns follows the schema:
    its keys are among the nine known ones, the eight text keys hold
    strings, [total_citations_detailed] holds a natural number; and the
    extraction changes nothing in the world. *)
Theorem extract_paper_metadata_schema
    (doc : element) (metadata : gmap string value) (w w' : world) :
  extract_paper_metadata doc w = (Return metadata, w') ->
  well_typed metadata /\ w' = w.
Proof.
  intros H. eapply extract_fields_well_typed; [exact H|].
  intros k v Hk. by rewrite lookup_empty in Hk.
Qed.

Lemma extract_paper_metadata_schema_witness :
  well_typed (<["authors" := VStr "A, B"]>
                (<["publication_date" := VStr "2019"]>
                   (<["total_citations_detailed" := VInt 42]> ∅)))
  /\ no_files = no_files.
Proof.
  apply (extract_paper_metadata_schema (Pages.detail_page Pages.spec_rows [])).
  vm_compute. reflexivity.
Defined.




(** ** What a download changes *)







Example traversal_title_stays_in_folder :
  pdf_name "../../Foo" (Some 2020) = ".._.._Foo_2020_.pdf".
Proof. reflexivity. Qed.

(** X12: [metadata] is None exactly when the detail page cannot be had (the
    request fails or the status is not 200); then the result is None too and
    the call has made no other request and no write: the only trace is the
    request for the page. *)
Theorem download_without_page
    (env : environment) (article_url paper_title : string)
    (year : option Z) (use_selenium : bool) (w w' : world)
    (result : option string) (metadata : option (gmap string value)) :
  download_pdf_from_scholar_article env article_url paper_title year use_selenium w
  = (Return (result, metadata), w') ->
  (metadata = None <-> page_unavailable env article_url)
  /\ (metadata = None ->
      result = None
      /\ w' = {| files := files w; log := log w ++ [GetArticle article_url] |}).
Proof.
  unfold download_pdf_from_scholar_article, page_unavailable.
  unfold mbind at 1. unfold M_bind at 1. unfold emit at 1.
  destruct (article_get env article_url) as [|status_code doc].
  { run. intros [= <- <- <-]. done. }
  destruct (status_code =? 200) eqn:Hst; simpl.
  - intros H. apply download_from_page_metadata in H as (m & w1 & _ & ->).
    split; [|done]. split; [done|]. intros Hne. lia.
  - run. intros [= <- <- <-]. split; [|done]. split; [|done]. intros _. lia.
Qed.

Lemma download_without_page_witness :
  page_unavailable Authors.offline "https://scholar.google.com/citations?view=Foo".
Proof.
  destruct (download_without_page Authors.offline
              "https://scholar.google.com/citations?view=Foo" "Foo" None false no_files
              {| files := ∅; log := [GetArticle "https://scholar.google.com/citations?view=Foo"] |}
              None None eq_refl) as [[H _] _].
  by apply H.
Defined.

(** ** The table that the loop builds *)


Lemma process_item_record
    (env : environment) (use_selenium : bool) (item : Item.t)
    (st st' : loop_state) (w w' : world) :
  process_item env use_selenium item st w = (Return st', w') ->
  papers_metadata st' = papers_metadata st
  \/ exists r, papers_metadata st' = papers_metadata st ++ [r] /\ record_key r = item_key item.
Proof.
  unfold process_item. unfold mbind at 1. unfold M_bind at 1.
  destruct (download_pdf_from_scholar_article _ _ _ _ _ _) as [[[result metadata]| |] w1];
    [|done..].
  destruct (usable metadata) as [m|]; [|run; intros [= <- _]; by left].
  unfold mbind, M_bind.
  destruct (year_of m w1) as [[year| |] w2]; [|done..].
  repeat case_match; run; intros [= <- _]; right; by eexists.
Qed.

(** X13: the table follows the listing.  The records that a run of the loop
    adds are, in order, records of items of the list in their order, at most
    one for an item: their titles and addresses form a sublist of those of
    the items. *)
Theorem scrape_loop_table_follows_items
    (env : environment) (use_selenium : bool) (max_papers : Z)
    (items : list Item.t) (st st' : loop_state) (w w' : world) :
  scrape_loop env use_selenium max_papers items st w = (Return st', w') ->
  exists new,
    papers_metadata st' = papers_metadata st ++ new
    /\ sublist (record_key <$> new) (item_key <$> items).
Proof.
  revert st w. induction items as [|item rest IH]; intros st w Hrun.
  - run. simplify_eq. exists []. by rewrite app_nil_r.
  - simpl in Hrun. destruct (_ && _).
    { run. simplify_eq. exists []. rewrite app_nil_r. split; [done|]. apply sublist_nil_l. }
    unfold mbind, M_bind in Hrun.
    destruct (process_item env use_selenium item st w) as [[st1| |] w1] eqn:Hitem; [|done..].
    destruct (IH _ _ Hrun) as (new & Hnew & Hsub).
    apply process_item_record in Hitem as [Hsame | (r & Hr & Hkey)].
    + exists new. rewrite Hnew, Hsame. split; [done|]. by apply sublist_cons.
    + exists (r :: new). rewrite Hnew, Hr, <- app_assoc. split; [done|].
      simpl. rewrite Hkey. by apply sublist_skip.
Qed.

Lemma scrape_loop_table_follows_items_witness :
  exists new,
    papers_metadata (state_of capped_run) = papers_metadata (initial_state no_files) ++ new
    /\ sublist (record_key <$> new) (item_key <$> [Authors.item "A"]).
Proof.
  apply (scrape_loop_table_follows_items Authors.dated_2020 false 1 [Authors.item "A"]
           (initial_state no_files) (state_of capped_run) no_files capped_run.2).
  vm_compute. reflexivity.
Defined.

Lemma names_with_cons (s : status) (r : paper_record) (rows : list paper_record) :
  names_with s (r :: rows)
  = (if decide (download_status r = s) then [pdf_filename r] else []) ++ names_with s rows.
Proof. unfold names_with. rewrite filter_cons. by case_decide. Qed.

(** The books of the loop: what the counters and the set of names are worth
    in terms of the records added. *)
Lemma scrape_loop_books
    (env : environment) (use_selenium : bool) (max_papers : Z)
    (items : list Item.t) (st st' : loop_state) (w w' : world) :
  scrape_loop env use_selenium max_papers items st w = (Return st', w') ->
  exists new,
    papers_metadata st' = papers_metadata st ++ new
    /\ skipped_count st'
       = skipped_count st + Z.of_nat (length (names_with already_exists new))
    /\ downloaded_papers st'
       = downloaded_papers st ∪ list_to_set (names_with downloaded new)
    /\ NoDup (names_with downloaded new)
    /\ (forall n, n ∈ names_with downloaded new -> n ∉ downloaded_papers st)
    /\ (forall n, n ∈ names_with already_exists new -> n ∈ downloaded_papers st').
Proof.
  revert st w. induction items as [|item rest IH]; intros st w Hrun.
  - run. simplify_eq. exists []. rewrite app_nil_r, Z.add_0_r.
    repeat split; try done; [set_solver | constructor | set_solver..].
  - simpl in Hrun. destruct (_ && _).
    { run. simplify_eq. exists []. rewrite app_nil_r, Z.add_0_r.
      repeat split; try done; [set_solver | constructor | set_solver..]. }
    unfold mbind, M_bind in Hrun.
    destruct (process_item env use_selenium item st w) as [[st1| |] w1] eqn:Hitem; [|done..].
    destruct (IH _ _ Hrun) as (new & Hnew & Hskip & Hset & Hnodup & Hfresh & Hold).
    apply process_item_step in Hitem.
    destruct Hitem as [|r Hst Hin|r Hst Hin|r Hst Hin]; simpl in *.
    + by exists new.
    + exists (r :: new). rewrite !names_with_cons, Hst. simpl.
      rewrite Hnew, <- app_assoc. repeat split; try done; [lia|].
      intros n [->|Hn]%elem_of_cons; [|auto]. rewrite Hset. set_solver.
    + exists (r :: new). rewrite !names_with_cons, Hst. simpl.
      rewrite Hnew, <- app_assoc. repeat split; try done.
      * rewrite Hset. set_solver.
      * constructor; [|done]. intros Hr. apply (Hfresh _ Hr). set_solver.
      * intros n [->|Hn]%elem_of_cons; [done|]. intros Hk. apply (Hfresh _ Hn). set_solver.
    + exists (r :: new). rewrite !names_with_cons, Hst. simpl.
      rewrite Hnew, <- app_assoc. repeat split; done.
Qed.

(** X14: the books of a run balance.  At the end of the loop
    [skipped_count] is the number of records with status [already_exists],
    and the set of known names is the set of the [.pdf] files found at the
    start together with the file names of the records with status
    [downloaded]. *)
Theorem scrape_loop_books_balance
    (env : environment) (use_selenium : bool) (max_papers : Z)
    (items : list Item.t) (w : world) (st' : loop_state) (w' : world) :
  scrape_loop env use_selenium max_papers items (initial_state w) w = (Return st', w') ->
  skipped_count st' = Z.of_nat (length (names_with already_exists (papers_metadata st')))
  /\ downloaded_papers st'
     = glob_pdf (files w) ∪ list_to_set (names_with downloaded (papers_metadata st')).
Proof.
  intros Hrun.
  destruct (scrape_loop_books _ _ _ _ _ _ _ _ Hrun) as (new & Hnew & Hskip & Hset & _).
  simpl in *. subst new. by rewrite Hskip, Hset.
Qed.

Lemma scrape_loop_books_balance_witness :
  skipped_count (state_of second_run)
  = Z.of_nat (length (names_with already_exists (papers_metadata (state_of second_run))))
  /\ downloaded_papers (state_of second_run)
     = glob_pdf (files Authors.folder_with_foo)
       ∪ list_to_set (names_with downloaded (papers_metadata (state_of second_run))).
Proof.
  apply (scrape_loop_books_balance Authors.dated_2020 false (-1) [Authors.item "Foo"]
           Authors.folder_with_foo (state_of second_run) second_run.2).
  vm_compute. reflexivity.
Defined.

(** X15: no file name is counted as a download twice.  The records with
    status [downloaded] have pairwise distinct file names, none of which was
    among the files found at the start; and every record with status
    [already_exists] names a file found at the start or the file of a record
    with status [downloaded]: a second publication with the same title and
    year as one downloaded in the run is recorded as [already_exists]. *)
Theorem scrape_loop_downloads_are_distinct
    (env : environment) (use_selenium : bool) (max_papers : Z)
    (items : list Item.t) (w : world) (st' : loop_state) (w' : world) :
  scrape_loop env use_selenium max_papers items (initial_state w) w = (Return st', w') ->
  NoDup (names_with downloaded (papers_metadata st'))
  /\ (forall n, n ∈ names_with downloaded (papers_metadata st') -> n ∉ glob_pdf (files w))
  /\ (forall n, n ∈ names_with already_exists (papers_metadata st') ->
                n ∈ glob_pdf (files w) \/ n ∈ names_with downloaded (papers_metadata st')).
Proof.
  intros Hrun.
  destruct (scrape_loop_books _ _ _ _ _ _ _ _ Hrun)
    as (new & Hnew & _ & Hset & Hnodup & Hfresh & Hold).
  simpl in *. subst new. split; [done|]. split; [done|].
  intros n Hn. specialize (Hold n Hn). rewrite Hset in Hold.
  apply elem_of_union in Hold as [?|Hd]; [by left|right].
  by apply elem_of_list_to_set in Hd.
Qed.

Lemma scrape_loop_downloads_are_distinct_witness :
  NoDup (names_with downloaded (papers_metadata (state_of twin_run)))
  /\ (forall n, n ∈ names_with downloaded (papers_metadata (state_of twin_run)) ->
                n ∉ glob_pdf (files no_files))
  /\ (forall n, n ∈ names_with already_exists (papers_metadata (state_of twin_run)) ->
                n ∈ glob_pdf (files no_files)
                \/ n ∈ names_with downloaded (papers_metadata (state_of twin_run))).
Proof.
  apply (scrape_loop_downloads_are_distinct Authors.dated_2020 false (-1)
           [Authors.item "Foo"; Authors.item "Foo"] no_files (state_of twin_run) twin_run.2).
  vm_compute. reflexivity.
Defined.

Example twin_statuses :
  (download_status <$> table_of twin_run) = [downloaded; already_exists].
Proof. vm_compute. reflexivity. Qed.

(** ** The files that a run touches *)

Lemma get_author_id_files
    (env : environment) (author_name link : option string) (w w' : world)
    (o : outcome string) :
  get_author_id env author_name link w = (o, w') -> files w' = files w.
Proof.
  unfold get_author_id, user_of_link, first_item.
  destruct (given link); run; repeat case_match; run; intros; by simplify_eq.
Qed.

Lemma _fetch_and_parse_files
    (env : environment) (author_id link : option string) (pagination : Z)
    (w w' : world) (o : outcome (list Item.t)) :
  _fetch_and_parse env author_id link pagination w = (o, w') -> files w' = files w.
Proof.
  unfold _fetch_and_parse. unfold mbind at 1. unfold M_bind at 1.
  destruct (get_author_id env author_id link w) as [ou w1] eqn:Hid.
  apply get_author_id_files in Hid.
  destruct ou as [user| |]; [|intros [= <- <-]; done..].
  unfold raise_for_status. run. repeat case_match; intros; by simplify_eq.
Qed.

Lemma fetch_and_parse_files
    (fuel : nat) (env : environment) (author_id link : option string)
    (w w' : world) (o : outcome (list Item.t)) :
  fetch_and_parse fuel env author_id link w = (o, w') -> files w' = files w.
Proof.
  unfold fetch_and_parse. generalize (@nil Item.t). generalize 0.
  revert w. induction fuel as [|fuel IH]; intros w pagination acc.
  - by intros [= <- <-].
  - simpl. unfold mbind at 1. unfold M_bind at 1.
    destruct (_fetch_and_parse _ _ _ _ _) as [op w1] eqn:Hp.
    apply _fetch_and_parse_files in Hp.
    destruct op as [items| |]; [|intros [= <- <-]; done..].
    unfold mbind at 1. unfold M_bind at 1.
    assert (exists ob, repeats_tail acc items w1 = (ob, w1)) as [ob ->].
    { unfold repeats_tail. repeat case_match; by eexists. }
    destruct ob as [[|]| |]; [|intros H; apply IH in H; congruence|..];
      intros [= <- <-]; done.
Qed.







(** ** Links of sheets *)

Lemma contains_here (p s : string) : PyStr.contains p (p +:+ s) = true.
Proof.
  assert (PyStr.startswith p (p +:+ s) = true) as H.
  { induction p as [|c p IH]; [by destruct s|].
    rewrite app_String. simpl. by rewrite decide_True. }
  destruct (p +:+ s); simpl in *; by rewrite H.
Qed.

Lemma contains_app (p a s : string) :
  PyStr.contains p s = true -> PyStr.contains p (a +:+ s) = true.
Proof.
  intros Hs. induction a as [|c a IH]; [done|].
  rewrite app_String. simpl. rewrite IH. apply orb_true_r.
Qed.

Lemma cut_skip (c0 : ascii) (sep a s : string) :
  avoids [c0] a = true ->
  Source.cut (String c0 sep) (a +:+ s)
  = match Source.cut (String c0 sep) s with
    | Some (b, r) => Some (a +:+ b, r)
    | None => None
    end.
Proof.
  induction a as [|c a IH].
  - intros _. rewrite app_empty. by destruct (Source.cut _ s) as [[b r]|].
  - intros [Hc Ha]%avoids_cons. rewrite app_String. simpl.
    rewrite decide_False by set_solver. rewrite (IH Ha).
    by destruct (Source.cut _ s) as [[b r]|].
Qed.

Lemma cut_path_rest (sep s b r : string) :
  path_rest s = true -> Source.cut sep s = Some (b, r) -> path_rest b = true.
Proof.
  destruct s as [|c s]; simpl.
  - intros _. destruct (PyStr.drop_prefix sep "") eqn:E; [by intros [= <- _]|done].
  - intros Hc. destruct (PyStr.drop_prefix sep (String c s)); [by intros [= <- _]|].
    destruct (Source.cut sep s) as [[b' r']|]; [|done]. by intros [= <- _].
Qed.

Lemma first_piece (fuel : nat) (id s : string) :
  avoids ["/"%char] id = true -> path_rest s = true ->
  exists x, path_rest x = true /\ head (Source.split_fuel (S fuel) "/d/" (id +:+ s)) = Some (id +:+ x).
Proof.
  intros Hid Hs. simpl Source.split_fuel. rewrite (cut_skip "/" "d/" id s Hid).
  destruct (Source.cut "/d/" s) as [[b r]|] eqn:Hcut.
  - exists b. split; [by eapply cut_path_rest|done].
  - by exists s.
Qed.

Lemma head_split_slash (id x : string) :
  avoids ["/"%char] id = true -> path_rest x = true ->
  head (Source.split "/" (id +:+ x)) = Some id.
Proof.
  intros Hid Hx. unfold Source.split.
  assert (Source.cut "/" (id +:+ x)
          = match x with "" => None | String _ x' => Some (id, x') end) as Hcut.
  { rewrite (cut_skip "/" "" id x Hid). destruct x as [|c x]; [done|].
    simpl in Hx. apply bool_decide_eq_true in Hx as ->. simpl.
    by rewrite app_empty_r. }
  destruct x as [|c x].
  - rewrite app_empty_r in *. destruct (String.length id); simpl; by rewrite Hcut.
  - destruct (String.length (id +:+ String c x)) eqn:Hlen.
    + destruct id; by rewrite ?app_String in Hlen.
    + simpl. by rewrite Hcut.
Qed.

(** X18: the share link of a sheet becomes its export link.  For a link
    [https://docs.google.com/spreadsheets/d/<id>] followed by nothing or by
    the rest of a path, where the identifier holds no slash,
    [load_data_source] reads
    [https://docs.google.com/spreadsheets/d/<id>/export?format=csv]; the two
    subscripts of the function do not raise. *)
Theorem sheet_link_becomes_export_link (id rest : string) :
  avoids ["/"%char] id = true ->
  path_rest rest = true ->
  Source.location ("https://docs.google.com/spreadsheets/d/" +:+ id +:+ rest)
  = Source.ReadCsv ("https://docs.google.com/spreadsheets/d/" +:+ id +:+ "/export?format=csv").
Proof.
  intros Hid Hrest. unfold Source.location.
  assert (PyStr.startswith "http" ("https://docs.google.com/spreadsheets/d/" +:+ id +:+ rest)
          = true) as -> by done.
  assert (PyStr.contains "docs.google.com/spreadsheets"
            ("https://docs.google.com/spreadsheets/d/" +:+ id +:+ rest) = true) as ->.
  { change ("https://docs.google.com/spreadsheets/d/" +:+ id +:+ rest)
      with ("https://" +:+ "docs.google.com/spreadsheets" +:+ ("/d/" +:+ id +:+ rest)).
    apply contains_app, contains_here. }
  assert (PyStr.contains "/d/" ("https://docs.google.com/spreadsheets/d/" +:+ id +:+ rest)
          = true) as ->.
  { change ("https://docs.google.com/spreadsheets/d/" +:+ id +:+ rest)
      with ("https://docs.google.com/spreadsheets" +:+ "/d/" +:+ (id +:+ rest)).
    apply contains_app, contains_here. }
  simpl andb. cbv iota.
  assert (Source.sheet_id ("https://docs.google.com/spreadsheets/d/" +:+ id +:+ rest)
          = Some id) as ->; [|done].
  unfold Source.sheet_id, Source.split.
  assert (exists fuel, String.length ("https://docs.google.com/spreadsheets/d/" +:+ id +:+ rest)
                       = S (S fuel)) as [fuel ->] by (by eexists).
  assert (Source.cut "/d/" ("https://docs.google.com/spreadsheets/d/" +:+ id +:+ rest)
          = Some ("https://docs.google.com/spreadsheets", id +:+ rest)) as Hcut
    by (vm_compute; reflexivity).
  change (Source.split_fuel (S (S fuel)) "/d/"
            ("https://docs.google.com/spreadsheets/d/" +:+ id +:+ rest))
    with (match Source.cut "/d/" ("https://docs.google.com/spreadsheets/d/" +:+ id +:+ rest) with
          | None => ["https://docs.google.com/spreadsheets/d/" +:+ id +:+ rest]
          | Some (b, a) => b :: Source.split_fuel (S fuel) "/d/" a
          end).
  rewrite Hcut.
  destruct (first_piece fuel id rest Hid Hrest) as (x & Hx & Hhead).
  destruct (Source.split_fuel (S fuel) "/d/" (id +:+ rest)) as [|piece pieces]; [done|].
  simpl in Hhead. injection Hhead as ->. simpl.
  by apply head_split_slash.
Qed.

Lemma sheet_link_becomes_export_link_witness :
  Source.location ("https://docs.google.com/spreadsheets/d/" +:+ "1AbC_dEf-9"
                   +:+ "/edit?usp=sharing#gid=0/d/x")
  = Source.ReadCsv ("https://docs.google.com/spreadsheets/d/" +:+ "1AbC_dEf-9"
                    +:+ "/export?format=csv").
Proof. by apply sheet_link_becomes_export_link. Defined.

Lemma drop_prefix_startswith (p s : string) :
  PyStr.startswith p s = true -> exists r, PyStr.drop_prefix p s = Some r.
Proof.
  revert s. induction p as [|a p IH]; intros s; [by eexists|].
  destruct s as [|b s]; [done|]. simpl.
  destruct (decide (a = b)); [apply IH|done].
Qed.

Lemma cut_contains (p s : string) :
  PyStr.contains p s = true -> exists b r, Source.cut p s = Some (b, r).
Proof.
  induction s as [|c s IH].
  - simpl. rewrite orb_false_r. intros [r Hr]%drop_prefix_startswith.
    simpl. rewrite Hr. by eexists _, _.
  - intros H. simpl in H. apply orb_true_iff in H as [H|H].
    + apply drop_prefix_startswith in H as [r Hr].
      exists "", r. simpl in *. by rewrite Hr.
    + destruct (IH H) as (b & r & Hcut).
      change (Source.cut p (String c s))
        with (match PyStr.drop_prefix p (String c s) with
              | Some rest => Some ("", rest)
              | None => match Source.cut p s with
                        | Some (b, a) => Some (String c b, a)
                        | None => None
                        end
              end).
      rewrite Hcut. destruct (PyStr.drop_prefix p (String c s)); by eexists _, _.
Qed.

Lemma split_fuel_head (fuel : nat) (sep s : string) :
  exists piece, head (Source.split_fuel fuel sep s) = Some piece.
Proof.
  destruct fuel; simpl; destruct (Source.cut sep s) as [[b r]|]; by eexists.
Qed.

(** X19: the subscripts of [load_data_source] are safe.  Whatever the
    source, the function does not raise IndexError: it takes
    [split('/d/')[1]] only when [/d/] occurs in the link, and the first piece
    of a split exists. *)
Theorem load_data_source_subscripts_safe (source : string) :
  Source.location source ≠ Source.SubscriptOutOfRange.
Proof.
  unfold Source.location.
  destruct (_ && _); [|done].
  destruct (PyStr.contains "/d/" source) eqn:Hd; [|done].
  assert (exists id, Source.sheet_id source = Some id) as [id ->]; [|done].
  unfold Source.sheet_id, Source.split.
  destruct (cut_contains _ _ Hd) as (b & r & Hcut).
  destruct (String.length source) as [|fuel] eqn:Hlen.
  { destruct source; [|done]. by vm_compute in Hd. }
  simpl. rewrite Hcut. simpl.
  destruct (split_fuel_head fuel "/d/" r) as [tail Htail].
  destruct (Source.split_fuel fuel "/d/" r) as [|t ts]; [done|].
  injection Htail as ->. simpl.
  apply split_fuel_head.
Qed.

(** ** Batches of authors *)

Lemma user_of_link_value (link : string) (w : world) :
  user_of_link link w = (Return (link_id link), w).
Proof.
  unfold user_of_link, link_id, user_values.
  pose proof (parse_qs_filled (Url.query link) "user") as Hfilled.
  destruct (Url.parse_qs (Url.query link) !! "user") as [vs|]; [|done].
  destruct (Hfilled vs eq_refl) as [Hne _]. by destruct vs.
Qed.




(** X21: the failure of one author does not end the batch.  When no cell of
    the column is a value other than a string or a missing value, the batch
    never raises: whatever exception the run for an author raises, the batch
    goes on, and it ends as finished or as still running.  It finishes when
    no run for a link of the table is left without an end. *)
Theorem scrape_rows_isolates_failures
    (fuel : nat) (env : environment) (use_selenium : bool) (max_papers : Z)
    (column_name : string) (table : list (string -> cell)) (d : disk) :
  Forall (fun row => row column_name ≠ Number) table ->
  ((scrape_rows fuel env use_selenium max_papers column_name table d).1 = Finished
   \/ (scrape_rows fuel env use_selenium max_papers column_name table d).1 = StillRunning)
  /\ ((forall row scholar_link d0,
          row ∈ table -> row column_name = Text scholar_link ->
          (scrape_author fuel env scholar_link use_selenium max_papers d0).1 ≠ OutOfFuel) ->
      (scrape_rows fuel env use_selenium max_papers column_name table d).1 = Finished).
Proof.
  intros Hcells. revert d. induction Hcells as [|row rest Hrow Hrest IH]; intros d.
  - split; [by left|done].
  - simpl. destruct (row column_name) as [|scholar_link|] eqn:Hcell; [| |done].
    + destruct (IH d) as [Hor Hfin]. split; [done|]. intros Hends. apply Hfin.
      intros r l d0 Hin. apply Hends. by apply list_elem_of_further.
    + destruct (PyStr.strip scholar_link) as [|c s].
      * destruct (IH d) as [Hor Hfin]. split; [done|]. intros Hends. apply Hfin.
        intros r l d0 Hin. apply Hends. by apply list_elem_of_further.
      * destruct (scrape_author _ _ _ _ _ _) as [o1 d1] eqn:Hauthor.
        destruct (IH d1) as [Hor Hfin].
        destruct o1 as [[]| |].
        -- split; [done|]. intros Hends. apply Hfin.
           intros r l d0 Hin. apply Hends. by apply list_elem_of_further.
        -- split; [done|]. intros Hends. apply Hfin.
           intros r l d0 Hin. apply Hends. by apply list_elem_of_further.
        -- split; [by right|]. intros Hends. exfalso.
           apply (Hends row scholar_link d (list_elem_of_here _ _) Hcell).
           by rewrite Hauthor.
Qed.

Lemma offline_author_raises (d0 : disk) :
  (scrape_author 3 Authors.offline Authors.profile false (-1) d0).1 = Raise RequestException.
Proof.
  unfold scrape_author, in_folder, scrape_author_papers.
  unfold mbind at 1. unfold M_bind at 1. rewrite get_author_id_profile.
  unfold mret at 1. unfold M_ret at 1.
  unfold mbind at 1. unfold M_bind at 1.
  unfold fetch_and_parse. simpl fetch_and_parse_loop.
  unfold mbind at 1. unfold M_bind at 1.
  unfold _fetch_and_parse. rewrite get_author_id_profile. reflexivity.
Qed.

Lemma scrape_rows_isolates_failures_witness :
  (scrape_rows 3 Authors.offline false (-1) "scholar_link" three_rows empty_disk).1 = Finished.
Proof.
  destruct (scrape_rows_isolates_failures 3 Authors.offline false (-1) "scholar_link"
              three_rows empty_disk) as [_ H].
  - repeat constructor; by vm_compute.
  - apply H. intros row l d0 Hin Hcell. unfold three_rows in Hin.
    repeat (apply elem_of_cons in Hin as [-> | Hin]);
      [injection Hcell as <- | discriminate | injection Hcell as <-
      | by apply not_elem_of_nil in Hin].
    + unfold scrape_author, in_folder, scrape_author_papers.
      unfold mbind at 1. unfold M_bind at 1.
      destruct (get_author_id _ _ _ _) as [[id| |] w1] eqn:Hid;
        [|simpl; discriminate | by vm_compute in Hid].
      unfold mbind at 1. unfold M_bind at 1.
      assert ((fetch_and_parse 3 Authors.offline (Some id) (Some "   ") w1).1
              = Raise RequestException) as Hf.
      { vm_compute in Hid. injection Hid as <- <-. reflexivity. }
      destruct (fetch_and_parse 3 _ _ _ _) as [o2 w2]. simpl in Hf. subst o2.
      simpl. discriminate.
    + rewrite offline_author_raises. discriminate.
Defined.

(** X22: an author without publications blocks the batch.  When every
    listing page of the author of a row comes back empty, the run for that
    row never ends, the batch is still running whatever the fuel, the rows
    that follow are never reached, and no folder has changed: the
    [try]/[except] around an author does not help against the endless
    loop of the paginator. *)
Theorem scrape_rows_blocked_by_empty_author
    (fuel : nat) (env : environment) (use_selenium : bool) (max_papers : Z)
    (column_name : string) (row : string -> cell) (rest : list (string -> cell))
    (scholar_link : string) (d : disk) :
  row column_name = Text scholar_link ->
  PyStr.strip scholar_link ≠ "" ->
  (forall pagination w, exists w',
      _fetch_and_parse env (Some (link_id scholar_link)) (Some scholar_link) pagination w
      = (Return [], w')) ->
  exists d',
    scrape_rows fuel env use_selenium max_papers column_name (row :: rest) d
    = (StillRunning, d')
    /\ forall folder, folder_files d' folder = folder_files d folder.
Proof.
  intros Hcell Hstrip Hempty. simpl. rewrite Hcell.
  destruct (PyStr.strip scholar_link) as [|c s] eqn:Hs; [done|].
  assert (given (Some scholar_link) = Some scholar_link) as Hgiven.
  { destruct scholar_link; [by vm_compute in Hs|done]. }
  unfold scrape_author, in_folder, scrape_author_papers.
  unfold mbind at 1. unfold M_bind at 1.
  unfold get_author_id at 1. rewrite Hgiven, user_of_link_value.
  unfold mbind at 1. unfold M_bind at 1.
  destruct (fetch_and_parse fuel env _ _ _) as [o1 w1] eqn:Hfetch.
  pose proof (fetch_and_parse_loop_empty_pages env _ _ Hempty fuel 0
                {| files := folder_files d (author_folder scholar_link); log := requests d |})
    as Hloop.
  unfold fetch_and_parse in Hfetch. rewrite Hfetch in Hloop. simpl in Hloop. subst o1.
  apply fetch_and_parse_files in Hfetch. simpl in Hfetch.
  eexists. split; [reflexivity|].
  intros folder. unfold folder_files. simpl. rewrite Hfetch.
  destruct (decide (author_folder scholar_link = folder)) as [<-|Hne].
  - by rewrite lookup_insert_eq.
  - by rewrite lookup_insert_ne.
Qed.

Lemma scrape_rows_blocked_by_empty_author_witness :
  exists d',
    scrape_rows 5 Authors.nobody false (-1) "scholar_link"
      (row_of (Some Authors.profile) :: three_rows) empty_disk
    = (StillRunning, d')
    /\ forall folder, folder_files d' folder = folder_files empty_disk folder.
Proof.
  apply (scrape_rows_blocked_by_empty_author 5 Authors.nobody false (-1) "scholar_link"
           (row_of (Some Authors.profile)) three_rows Authors.profile empty_disk).
  - reflexivity.
  - vm_compute. discriminate.
  - intros pagination w. unfold _fetch_and_parse. rewrite get_author_id_profile.
    eexists. reflexivity.
Defined.

(** ** The link that is chosen, and the message of a missing column *)

(** X23: the address chosen for the artifact is the address of one of the
    candidates: [select_pdf_href] never makes up a link. *)
Theorem select_pdf_href_is_a_candidate (pdf_anchors : list element) (href : string) :
  select_pdf_href pdf_anchors = Some href ->
  exists anchor, anchor ∈ pdf_anchors /\ el_get anchor "href" = Some href.
Proof.
  unfold select_pdf_href.
  destruct pdf_anchors as [|a [|b rest]]; [done| |].
  - intros H. exists a. split; [apply list_elem_of_here|done].
  - destruct (find mentions_pdf (a :: b :: rest)) as [anchor|] eqn:Hfind.
    + destruct (given (el_get anchor "href")) as [h|] eqn:Hgiven.
      * intros [= ->]. exists anchor. split.
        -- apply find_some in Hfind as [Hin _]. by apply list_elem_of_In.
        -- destruct (el_get anchor "href") as [[|c s]|]; simpl in Hgiven; by simplify_eq.
      * intros H. destruct (last (a :: b :: rest)) as [l|] eqn:Hlast; [|done].
        exists l. split; [|done]. apply last_Some in Hlast as [l' ->]. set_solver.
    + simpl given. intros H.
      destruct (last (a :: b :: rest)) as [l|] eqn:Hlast; [|done].
      exists l. split; [|done]. apply last_Some in Hlast as [l' ->]. set_solver.
Qed.

Lemma select_pdf_href_is_a_candidate_witness :
  exists anchor,
    anchor ∈ [Pages.pdf_without_href; Pages.html_link]
    /\ el_get anchor "href" = Some "https://example.org/paper.html".
Proof. by apply select_pdf_href_is_a_candidate. Defined.

Lemma contains_join_comma (name : string) (names : list string) :
  name ∈ names -> PyStr.contains name (join_comma names) = true.
Proof.
  induction names as [|n rest IH]; [by intros ?%not_elem_of_nil|].
  intros [->|Hin]%elem_of_cons.
  - destruct rest as [|n' rest]; simpl.
    + rewrite <- (app_empty_r n) at 2. apply contains_here.
    + apply contains_here.
  - specialize (IH Hin). destruct rest as [|n' rest]; [by apply not_elem_of_nil in Hin|].
    change (join_comma (n :: n' :: rest)) with (n +:+ ", " +:+ join_comma (n' :: rest)).
    by do 2 apply contains_app.
Qed.

(** X24: a table without the column asked for and without [scholar_link]
    makes [scrape_from_source] raise a ValueError whose message names every
    column there is, before any request is made and before any folder is
    touched. *)
Theorem scrape_from_source_missing_column
    (fuel : nat) (env : environment) (read_csv : string -> option dataframe)
    (source : string) (use_selenium : bool) (max_papers : Z) (column_name : string)
    (df : dataframe) (d : disk) :
  load_data_source read_csv source = inr df ->
  column_name ∉ columns df ->
  "scholar_link" ∉ columns df ->
  exists message,
    scrape_from_source fuel env read_csv source use_selenium max_papers column_name d
    = (ValueError message, d)
    /\ PyStr.contains column_name message = true
    /\ forall name, name ∈ columns df -> PyStr.contains name message = true.
Proof.
  intros Hload Hcol Hfallback. unfold scrape_from_source, resolve_column. rewrite Hload.
  rewrite !bool_decide_eq_false_2 by done.
  eexists. split; [reflexivity|]. split.
  - apply (contains_app _ "Column '"), contains_here.
  - intros name Hin.
    rewrite <- !app_assoc_str. apply contains_app. by apply contains_join_comma.
Qed.

Lemma scrape_from_source_missing_column_witness :
  exists message,
    scrape_from_source 3 Authors.offline
      (fun _ => Some {| columns := ["Name"; "Homepage"]; rows := three_rows |})
      "authors.csv" false (-1) "Google Scholar Page" empty_disk
    = (ValueError message, empty_disk)
    /\ PyStr.contains "Google Scholar Page" message = true
    /\ forall name, name ∈ ["Name"; "Homepage"] -> PyStr.contains name message = true.
Proof.
  apply (scrape_from_source_missing_column 3 Authors.offline _ "authors.csv" false (-1)
           "Google Scholar Page" {| columns := ["Name"; "Homepage"]; rows := three_rows |}).
  - reflexivity.
  - apply (bool_decide_unpack _). by vm_compute.
  - apply (bool_decide_unpack _). by vm_compute.
Defined.
